(** * CodeTool (tool/codetool.py): snippet catalog, format/lint adapter and
    command dispatcher, embedded in Rocq.

    Python text is modelled as a sequence of Unicode code points, so that the
    whitespace and line-boundary tables of [str.strip], [str.split] and
    [str.splitlines] can be written out in full.  Dictionaries are stdpp
    finite maps; the console and the exceptions of the dispatcher are an
    explicit state-and-error monad. *)

From Stdlib Require Import String Ascii NArith ZArith List Lia.
From stdpp Require Import base option list gmap.
From Equations Require Import Equations.
From Equations.Prop Require Import Logic.

(** ** Python runtime: the [str] methods the program calls *)

Module Py.

(** A [str] is a list of code points. *)
Abbreviation str := (list N).

(** Conversion of an (ASCII) literal of this file to a [str]. *)
Definition py (s : string) : str := map N_of_ascii (list_ascii_of_string s).

Definition LF : N := 10.
Definition CR : N := 13.

(** [str.isspace] on one code point: the code points for which CPython's
    [Py_UNICODE_ISSPACE] holds. *)
Definition isspace (c : N) : bool :=
  ((9 <=? c) && (c <=? 13) || (28 <=? c) && (c <=? 32)
   || (c =? 133) || (c =? 160) || (c =? 5760)
   || (8192 <=? c) && (c <=? 8202)
   || (c =? 8232) || (c =? 8233) || (c =? 8239) || (c =? 8287)
   || (c =? 12288))%N.

(** Line boundaries of [str.splitlines]: \n \v \f \r, FS GS RS, NEL, LS, PS. *)
Definition is_linebreak (c : N) : bool :=
  ((10 <=? c) && (c <=? 13) || (28 <=? c) && (c <=? 30)
   || (c =? 133) || (c =? 8232) || (c =? 8233))%N.

(** [a == b] on strings. *)
Definition str_eqb (a b : str) : bool := bool_decide (a = b).

(** [s.startswith(p)] *)
Fixpoint startswith (s p : str) {struct p} : bool :=
  match p, s with
  | [], _ => true
  | _ :: _, [] => false
  | a :: p', b :: s' => (a =? b)%N && startswith s' p'
  end.

(** [s.lstrip()], [s.rstrip()], [s.strip()] with no argument. *)
Fixpoint lstrip (s : str) : str :=
  match s with
  | c :: s' => if isspace c then lstrip s' else s
  | [] => []
  end.

Definition rstrip (s : str) : str := rev (lstrip (rev s)).

Definition strip (s : str) : str := rstrip (lstrip s).

(** [s.split()] with no argument: the maximal runs of non-whitespace, in
    order.  [cur] is the run being read. *)
Fixpoint split_from (cur s : str) : list str :=
  match s with
  | [] => match cur with [] => [] | _ => [cur] end
  | c :: s' =>
      if isspace c
      then match cur with
           | [] => split_from [] s'
           | _ => cur :: split_from [] s'
           end
      else split_from (cur ++ [c]) s'
  end.

Definition split (s : str) : list str := split_from [] s.

(** [s.splitlines(True)]: the lines of [s], each with its line ending.
    [cur] is the line being read; \r\n counts as one ending. *)
Fixpoint splitlines_from (cur s : str) : list str :=
  match s with
  | [] => match cur with [] => [] | _ => [cur] end
  | c :: s' =>
      if is_linebreak c
      then match s' with
           | d :: s'' =>
               if (c =? CR)%N && (d =? LF)%N
               then (cur ++ [c; d]) :: splitlines_from [] s''
               else (cur ++ [c]) :: splitlines_from [] s'
           | [] => (cur ++ [c]) :: splitlines_from [] s'
           end
      else splitlines_from (cur ++ [c]) s'
  end.

Definition splitlines_keepends (s : str) : list str := splitlines_from [] s.

(** [sep.join(l)] *)
Fixpoint join (sep : str) (l : list str) : str :=
  match l with
  | [] => []
  | [x] => x
  | x :: l' => x ++ sep ++ join sep l'
  end.

(** [textwrap.indent(text, prefix)] with the default predicate: the prefix
    is added to the lines that do not consist solely of whitespace. *)
Definition indent_line (prefix line : str) : str :=
  match strip line with
  | [] => line
  | _ => prefix ++ line
  end.

Definition textwrap_indent (text prefix : str) : str :=
  concat (map (indent_line prefix) (splitlines_keepends text)).

(** [d.get(k, dflt)] *)
Definition dict_get {V} (d : gmap str V) (k : str) (dflt : V) : V :=
  default dflt (d !! k).

End Py.

(** ** Exceptions, the optional dependencies and the console *)

Module Runtime.
Import Py.

(** The exceptions that occur: a failed [import], end of input under
    [input()], [sys.exit(status)], an index out of range, and whatever an
    installed third-party package may raise. *)
Inductive exn :=
| ImportError
| EOFError
| SystemExit (status : Z)
| IndexError
| OtherError.

Inductive outcome (A : Type) :=
| Ret (a : A)
| Raise (e : exn).
Arguments Ret {A} a.
Arguments Raise {A} e.

Definition outcome_bind {A B} (m : outcome A) (k : A -> outcome B) : outcome B :=
  match m with
  | Ret a => k a
  | Raise e => Raise e
  end.

(** [try: body except ImportError: handler] *)
Definition try_except_ImportError {A} (body handler : outcome A) : outcome A :=
  match body with
  | Raise ImportError => handler
  | r => r
  end.

(** What is installed next to the script.  [None] is a package that is
    absent, so that its [import] raises [ImportError].  An installed
    autopep8 gives [fix_code]; an installed pyflakes gives, for the call
    [check(code, filename, out)], the text left in [out]. *)
Record Env := {
  autopep8_fix_code : option (str -> outcome str);
  pyflakes_api_check : option (str -> str -> outcome str);
}.

Definition import_module {F} (m : option F) : outcome F :=
  match m with
  | Some f => Ret f
  | None => Raise ImportError
  end.

(** The console.  [stdin] is the text still to be read (line endings
    already translated to \n); [stdout] is what has been written, oldest
    first: the prompts of [input] and the arguments of [print] (each [print]
    ends its text with a newline). *)
Inductive event :=
| Prompted (s : str)
| Printed (s : str).

Record world := World {
  stdin : str;
  stdout : list event;
}.

Definition io (A : Type) : Type := world -> outcome A * world.

Definition io_ret {A} (a : A) : io A := fun w => (Ret a, w).

Definition io_bind {A B} (m : io A) (k : A -> io B) : io B :=
  fun w =>
    match m w with
    | (Ret a, w') => k a w'
    | (Raise e, w') => (Raise e, w')
    end.

Definition lift {A} (r : outcome A) : io A := fun w => (r, w).

Definition emit (e : event) : io unit :=
  fun w => (Ret tt, World (stdin w) (stdout w ++ [e])).

(** [print(s)] *)
Definition print (s : str) : io unit := emit (Printed s).

(** [sys.stdin.readline()]: up to and including the first \n. *)
Fixpoint readline (s : str) : str * str :=
  match s with
  | [] => ([], [])
  | c :: s' =>
      if (c =? LF)%N then ([c], s')
      else let '(l, r) := readline s' in (c :: l, r)
  end.

(** The line without its final \n, if it has one. *)
Fixpoint chomp (l : str) : str :=
  match l with
  | [] => []
  | [c] => if (c =? LF)%N then [] else [c]
  | c :: l' => c :: chomp l'
  end.

(** [input(prompt)]: writes the prompt, reads one line and returns it without
    its newline; [EOFError] when nothing is left to read. *)
Definition input (prompt : str) : io str :=
  fun w =>
    let out := stdout w ++ [Prompted prompt] in
    match stdin w with
    | [] => (Raise EOFError, World [] out)
    | _ => let '(l, r) := readline (stdin w) in (Ret (chomp l), World r out)
    end.

(** [sys.stdin.read()]: everything up to end of stream. *)
Definition stdin_read : io str :=
  fun w => (Ret (stdin w), World [] (stdout w)).

(** [sys.exit(status)] *)
Definition sys_exit {A} (status : Z) : io A :=
  fun w => (Raise (SystemExit status), w).

(** Exit status of the process once the script has run: 0 when it ran to
    its end, the argument of [sys.exit], 1 for an uncaught exception. *)
Definition exit_status {A} (r : outcome A) : Z :=
  match r with
  | Ret _ => 0
  | Raise (SystemExit n) => n
  | Raise _ => 1
  end.

End Runtime.

(** ** The files the batch mode writes *)

Module Files.
Import Py Runtime.

(** What a path names: a directory, or a regular file with its text. *)
Inductive node :=
| Dir
| File (content : str).

(** The file store, by path.  Paths are relative to the working directory,
    which exists and is not in the map.  Permissions and device errors are
    not modelled: an operation fails only for the kind of node it meets. *)
Abbreviation store := (gmap str node).

Definition fsio (A : Type) : Type := store -> outcome A * store.

Definition fs_ret {A} (a : A) : fsio A := fun fs => (Ret a, fs).

Definition fs_bind {A B} (m : fsio A) (k : A -> fsio B) : fsio B :=
  fun fs =>
    match m fs with
    | (Ret a, fs') => k a fs'
    | (Raise e, fs') => (Raise e, fs')
    end.

(** The text after the first "/" of a reversed path, and with it the
    directory part of a path: what is before its last "/" (empty for a name
    in the working directory). *)
Fixpoint after_slash (s : str) : str :=
  match s with
  | [] => []
  | c :: s' => if (c =? 47)%N then s' else after_slash s'
  end.

Definition parent (path : str) : str := rev (after_slash (rev path)).

(** [os.makedirs(name, exist_ok=True)] for a name in the working directory:
    an existing directory is left alone, a regular file of that name gives
    [FileExistsError]. *)
Definition makedirs_exist_ok (name : str) : fsio unit :=
  fun fs =>
    match fs !! name with
    | Some (File _) => (Raise OtherError, fs)
    | _ => (Ret tt, <[name := Dir]> fs)
    end.

(** [with open(path, 'w') as f: f.write(content)]: the directory part must
    name a directory ([FileNotFoundError], [NotADirectoryError]), the path
    itself must not ([IsADirectoryError]); an existing file is replaced. *)
Definition write_text (path content : str) : fsio unit :=
  fun fs =>
    let dir_ok :=
      match parent path with
      | [] => true
      | dir => match fs !! dir with Some Dir => true | _ => false end
      end in
    if dir_ok then
      match fs !! path with
      | Some Dir => (Raise OtherError, fs)
      | _ => (Ret tt, <[path := File content]> fs)
      end
    else (Raise OtherError, fs).

(** [for x in l: body(x)] *)
Fixpoint for_each {A} (l : list A) (body : A -> fsio unit) : fsio unit :=
  match l with
  | [] => fs_ret tt
  | x :: l' => fs_bind (body x) (fun _ => for_each l' body)
  end.

End Files.

(** ** The program *)

Module CodeTool.
Import Py Runtime.

#[export] Instance outcome_ret : MRet outcome := @Ret.
#[export] Instance outcome_mbind : MBind outcome := fun A B k m => outcome_bind m k.
#[export] Instance io_mret : MRet io := @io_ret.
#[export] Instance io_mbind : MBind io := fun A B k m => io_bind m k.

(** *** String constants of the source *)

Local Open Scope string_scope.

(** The double quote, and a text given by its lines (joined by \n). *)
Definition dq : string := String "034"%char EmptyString.

Definition text (lines : list string) : str := join [LF] (map py lines).

Definition python_hello : str :=
  text
    ["print(" ++ dq ++ "Hello, world!" ++ dq ++ ")"].

Definition python_function : str :=
  text
    ["def my_function(arg1, arg2):";
     "    " ++ dq ++ dq ++ dq ++ "Example function." ++ dq ++ dq ++ dq;
     "    return arg1 + arg2"].

Definition python_class : str :=
  text
    ["class MyClass:";
     "    def __init__(self, value):";
     "        self.value = value";
     "    def __str__(self):";
     "        return f" ++ dq ++ "MyClass: {self.value}" ++ dq].

Definition java_hello : str :=
  text
    ["public class HelloWorld {";
     "    public static void main(String[] args) {";
     "        System.out.println(" ++ dq ++ "Hello, world!" ++ dq ++ ");";
     "    }";
     "}"].

Definition java_function : str :=
  text
    ["public int add(int a, int b) {";
     "    return a + b;";
     "}"].

Definition java_class : str :=
  text
    ["public class MyClass {";
     "    private int value;";
     "    public MyClass(int value) {";
     "        this.value = value;";
     "    }";
     "    public String toString() {";
     "        return " ++ dq ++ "MyClass: " ++ dq ++ " + value;";
     "    }";
     "}"].

Definition perl_hello : str :=
  text
    ["print " ++ dq ++ "Hello, world!\n" ++ dq ++ ";"].

Definition perl_function : str :=
  text
    ["sub add {";
     "    my ($a, $b) = @_;";
     "    return $a + $b;";
     "}"].

Definition perl_class : str :=
  text
    ["package MyClass;";
     "sub new {";
     "    my ($class, $value) = @_;";
     "    bless { value => $value }, $class;";
     "}";
     "sub value {";
     "    my $self = shift;";
     "    return $self->{value};";
     "}";
     "1;"].

Definition lua_hello : str :=
  text
    ["print(" ++ dq ++ "Hello, world!" ++ dq ++ ")"].

Definition lua_function : str :=
  text
    ["function add(a, b)";
     "    return a + b";
     "end"].

Definition lua_class : str :=
  text
    ["MyClass = {}";
     "MyClass.__index = MyClass";
     "function MyClass:new(value)";
     "    local inst = setmetatable({}, self)";
     "    inst.value = value";
     "    return inst";
     "end";
     "function MyClass:toString()";
     "    return " ++ dq ++ "MyClass: " ++ dq ++ " .. tostring(self.value)";
     "end"].

Definition kotlin_hello : str :=
  text
    ["fun main() {";
     "    println(" ++ dq ++ "Hello, world!" ++ dq ++ ")";
     "}"].

Definition kotlin_function : str :=
  text
    ["fun add(a: Int, b: Int): Int {";
     "    return a + b";
     "}"].

Definition kotlin_class : str :=
  text
    ["class MyClass(val value: Int) {";
     "    override fun toString(): String = " ++ dq ++ "MyClass: $value" ++ dq;
     "}"].

Definition help_text : str :=
  text
    [EmptyString;
     "Commands:";
     "    snippet <lang> <topic>   - Show code snippet (topics: hello, function, class)";
     "    format <lang>            - Format code from stdin (end with EOF)";
     "    lint <lang>              - Lint code from stdin (end with EOF)";
     "    doc <lang>               - Show documentation link";
     "    template <lang> <kind>   - Generate starter template (hello, function, class)";
     "    langs                    - List supported languages";
     "    help                     - Show this help";
     "    exit                     - Quit";
     EmptyString].

Local Close Scope string_scope.

(** *** Utility functions *)

(** [print_header(title)], codetool.py:23-26 *)
Definition print_header (title : str) : io unit :=
  print (replicate 70 61%N);;
  print title;;
  print (replicate 70 61%N).

(** [list_languages()], codetool.py:28-29 *)
Definition list_languages : list str :=
  [py "python"; py "java"; py "perl"; py "lua"; py "kotlin"].

(** The dictionary literal of [get_snippet]: one inner dictionary per
    language. *)
Definition python_snippets : gmap str str :=
  list_to_map [
    (py "hello", python_hello);
    (py "function", python_function);
    (py "class", python_class)].

Definition java_snippets : gmap str str :=
  list_to_map [
    (py "hello", java_hello);
    (py "function", java_function);
    (py "class", java_class)].

Definition perl_snippets : gmap str str :=
  list_to_map [
    (py "hello", perl_hello);
    (py "function", perl_function);
    (py "class", perl_class)].

Definition lua_snippets : gmap str str :=
  list_to_map [
    (py "hello", lua_hello);
    (py "function", lua_function);
    (py "class", lua_class)].

Definition kotlin_snippets : gmap str str :=
  list_to_map [
    (py "hello", kotlin_hello);
    (py "function", kotlin_function);
    (py "class", kotlin_class)].

Definition snippets : gmap str (gmap str str) :=
  list_to_map [
    (py "python", python_snippets);
    (py "java", java_snippets);
    (py "perl", perl_snippets);
    (py "lua", lua_snippets);
    (py "kotlin", kotlin_snippets)].

(** [get_snippet(lang, topic)], codetool.py:31-62 *)
Definition get_snippet (lang topic : str) : str :=
  dict_get (dict_get snippets lang ∅) topic
           (py "# No snippet found for this topic/language.").

(** [format_code(lang, code)], codetool.py:64-78 *)
Definition format_code (env : Env) (lang code : str) : outcome str :=
  if str_eqb lang (py "python") then
    try_except_ImportError
      (fix_code ← import_module (autopep8_fix_code env);
       fix_code code)
      (Ret (py "# autopep8 not installed, returning original code." ++ [LF] ++ code))
  else if str_eqb lang (py "java") then
    Ret (textwrap_indent code (py "    "))
  else Ret code.

(** [lint_code(lang, code)], codetool.py:80-93 *)
Definition lint_code (env : Env) (lang code : str) : outcome str :=
  if str_eqb lang (py "python") then
    try_except_ImportError
      (check ← import_module (pyflakes_api_check env);
       check code (py "<string>"))
      (Ret (py "# pyflakes not installed, skipping lint."))
  else Ret (py "# Lint not supported for this language in this demo.").

(** The dictionary literal of [doc_link]. *)
Definition docs : gmap str str :=
  list_to_map [
    (py "python", py "https://docs.python.org/3/");
    (py "java", py "https://docs.oracle.com/en/java/");
    (py "perl", py "https://perldoc.perl.org/");
    (py "lua", py "https://www.lua.org/manual/5.4/");
    (py "kotlin", py "https://kotlinlang.org/docs/home.html")
  ].

(** [doc_link(lang, topic)], codetool.py:95-106; [topic] is not used. *)
Definition doc_link (lang topic : str) : str :=
  dict_get docs lang (py "# No documentation link found.").

(** [generate_template(lang, kind)], codetool.py:108-118 *)
Definition generate_template (lang kind : str) : str :=
  if str_eqb kind (py "hello") then get_snippet lang (py "hello")
  else if str_eqb kind (py "function") then get_snippet lang (py "function")
  else if str_eqb kind (py "class") then get_snippet lang (py "class")
  else py "# Template not available.".

(** *** CLI logic *)

(** [l[i]] *)
Definition getitem (l : list str) (i : nat) : outcome str :=
  match l !! i with
  | Some x => Ret x
  | None => Raise IndexError
  end.

Definition supported_languages_line : str :=
  py "Supported languages: " ++ join (py ", ") list_languages.

(** Reading never puts text back: an action leaves at most the input it
    found.  This is what makes the read loop below terminate. *)
Definition consumes_only {A} (m : io A) : Prop :=
  ∀ w, length (stdin (m w).2) ≤ length (stdin w).

Lemma consumes_only_ret {A} (a : A) : consumes_only (mret a : io A).
Proof. intros w. reflexivity. Qed.

Lemma consumes_only_lift {A} (r : outcome A) : consumes_only (lift r).
Proof. intros w. reflexivity. Qed.

Lemma consumes_only_print s : consumes_only (print s).
Proof. intros w. reflexivity. Qed.

Lemma consumes_only_stdin_read : consumes_only stdin_read.
Proof. intros w. simpl. lia. Qed.

Lemma consumes_only_bind {A B} (m : io A) (k : A → io B) :
  consumes_only m → (∀ a, consumes_only (k a)) → consumes_only (m ≫= k).
Proof.
  intros Hm Hk w. unfold mbind, io_mbind, io_bind.
  specialize (Hm w). destruct (m w) as [[a|e] w1]; simpl in *.
  - specialize (Hk a w1). lia.
  - exact Hm.
Qed.

Lemma readline_shorter (s : str) :
  s ≠ [] → length (readline s).2 < length s.
Proof.
  induction s as [|c s IH]; [done|]. intros _. simpl.
  destruct (c =? LF)%N; [simpl; lia|].
  destruct s as [|d s]; [simpl; lia|].
  specialize (IH ltac:(done)).
  destruct (readline (d :: s)) as [l r]. simpl in *. lia.
Qed.

Ltac consumes_only_tac :=
  repeat first
    [ apply consumes_only_ret
    | apply consumes_only_lift
    | apply consumes_only_print
    | apply consumes_only_stdin_read
    | apply consumes_only_bind; [|intros ?]
    | match goal with
      | |- consumes_only (if ?b then _ else _) => destruct b
      | |- consumes_only (let _ := _ in _) => cbv zeta
      end ].

Section Dispatcher.

Variable env : Env.

(** The dispatcher is written over the documentation lookup it calls, so
    that the arguments of the call can be stated; the program runs it with
    [doc_link] (see [interactive_cli] and [main] below). *)
Variable doc_link_fn : str -> str -> str.

(** The [if]/[elif] chain of the loop body (codetool.py:128-185) on the
    stripped line [cmd];
    [true] stands for [break], [false] for falling through to the next
    iteration. *)
Definition repl_dispatch (cmd : str) : io bool :=
  if str_eqb cmd (py "exit") then
    print (py "Goodbye!");;
    mret true
  else if str_eqb cmd (py "help") then
    print help_text;;
    mret false
  else if startswith cmd (py "langs") then
    print supported_languages_line;;
    mret false
  else if startswith cmd (py "snippet ") then
    let parts := split cmd in
    (if negb (length parts =? 3) then
       print (py "Usage: snippet <lang> <topic>")
     else
       lang ← lift (getitem parts 1);
       topic ← lift (getitem parts 2);
       print (get_snippet lang topic));;
    mret false
  else if startswith cmd (py "template ") then
    let parts := split cmd in
    (if negb (length parts =? 3) then
       print (py "Usage: template <lang> <kind>")
     else
       lang ← lift (getitem parts 1);
       kind ← lift (getitem parts 2);
       print (generate_template lang kind));;
    mret false
  else if startswith cmd (py "format ") then
    let parts := split cmd in
    (if negb (length parts =? 2) then
       print (py "Usage: format <lang>")
     else
       lang ← lift (getitem parts 1);
       print (py "Paste code, then Ctrl-D (EOF):");;
       code ← stdin_read;
       formatted ← lift (format_code env lang code);
       print formatted);;
    mret false
  else if startswith cmd (py "lint ") then
    let parts := split cmd in
    (if negb (length parts =? 2) then
       print (py "Usage: lint <lang>")
     else
       lang ← lift (getitem parts 1);
       print (py "Paste code, then Ctrl-D (EOF):");;
       code ← stdin_read;
       report ← lift (lint_code env lang code);
       print report);;
    mret false
  else if startswith cmd (py "doc ") then
    let parts := split cmd in
    (if negb (length parts =? 2) then
       print (py "Usage: doc <lang>")
     else
       lang ← lift (getitem parts 1);
       print (doc_link_fn lang []));;
    mret false
  else
    print (py "Unknown command. Type 'help'.");;
    mret false.

(** One pass through the body of [while True], codetool.py:127-185. *)
Definition repl_iteration : io bool :=
  line ← input (py "codetool> ");
  repl_dispatch (strip line).

Lemma repl_dispatch_consumes_only cmd : consumes_only (repl_dispatch cmd).
Proof. unfold repl_dispatch. consumes_only_tac. Qed.

Lemma repl_iteration_shorter w b w' :
  repl_iteration w = (Ret b, w') → length (stdin w') < length (stdin w).
Proof.
  unfold repl_iteration, mbind, io_mbind, io_bind, input.
  destruct (stdin w) as [|c s] eqn:Hin; [done|].
  pose proof (readline_shorter (c :: s) ltac:(done)) as Hlt.
  destruct (readline (c :: s)) as [l r]. simpl in Hlt.
  intros Hd.
  pose proof (repl_dispatch_consumes_only (strip (chomp l))
                (World r (stdout w ++ [Prompted (py "codetool> ")]))) as Hle.
  rewrite Hd in Hle. simpl in Hle |- *. lia.
Qed.

(** [while True: ...]: the loop ends on [break] or on an exception; every
    other pass has taken at least one character from the input. *)
Equations? repl_loop (w : world) : outcome unit * world
  by wf (length (stdin w)) lt :=
  repl_loop w with inspect (repl_iteration w) := {
    | exist _ (Ret true, w') _ => (Ret tt, w');
    | exist _ (Ret false, w') Hstep => repl_loop w';
    | exist _ (Raise e, w') _ => (Raise e, w') }.
Proof. exact (repl_iteration_shorter _ _ _ Hstep). Qed.

(** [interactive_cli()], codetool.py:122-185 *)
Definition interactive_cli_with : io unit :=
  print_header (py "CodeTool - Interactive Code Helper");;
  print supported_languages_line;;
  print (py "Type 'help' for commands, 'exit' to quit.");;
  repl_loop.

(** [main()], codetool.py:187-229, on [sys.argv = argv].  [sys.argv[1]] is
    read once for the whole [if]/[elif] chain. *)
Definition main_with (argv : list str) : io unit :=
  if length argv =? 1 then
    interactive_cli_with
  else if 2 <=? length argv then
    verb ← lift (getitem argv 1);
    if str_eqb verb (py "snippet") then
      (if negb (length argv =? 4) then
         print (py "Usage: snippet <lang> <topic>");;
         sys_exit 1
       else mret tt);;
      lang ← lift (getitem argv 2);
      topic ← lift (getitem argv 3);
      print (get_snippet lang topic)
    else if str_eqb verb (py "template") then
      (if negb (length argv =? 4) then
         print (py "Usage: template <lang> <kind>");;
         sys_exit 1
       else mret tt);;
      lang ← lift (getitem argv 2);
      kind ← lift (getitem argv 3);
      print (generate_template lang kind)
    else if str_eqb verb (py "format") then
      (if negb (length argv =? 3) then
         print (py "Usage: format <lang>");;
         sys_exit 1
       else mret tt);;
      lang ← lift (getitem argv 2);
      print (py "Paste code, then Ctrl-D (EOF):");;
      code ← stdin_read;
      formatted ← lift (format_code env lang code);
      print formatted
    else if str_eqb verb (py "lint") then
      (if negb (length argv =? 3) then
         print (py "Usage: lint <lang>");;
         sys_exit 1
       else mret tt);;
      lang ← lift (getitem argv 2);
      print (py "Paste code, then Ctrl-D (EOF):");;
      code ← stdin_read;
      report ← lift (lint_code env lang code);
      print report
    else if str_eqb verb (py "doc") then
      (if negb (length argv =? 3) then
         print (py "Usage: doc <lang>");;
         sys_exit 1
       else mret tt);;
      lang ← lift (getitem argv 2);
      print (doc_link_fn lang [])
    else if str_eqb verb (py "langs") then
      print supported_languages_line
    else
      print (py "Unknown command. Try running with no arguments for interactive mode.")
  else mret tt.

End Dispatcher.

(** The program: the dispatcher with [doc_link] as its documentation
    lookup. *)
Definition interactive_cli (env : Env) : io unit :=
  interactive_cli_with env doc_link.

Definition main (env : Env) (argv : list str) : io unit :=
  main_with env doc_link argv.

(** The dictionary literal of [advanced_code_recommendations]. *)
Definition tips : gmap str str :=
  list_to_map [
    (py "python", py "Consider using comprehensions for cleaner code.");
    (py "java", py "Use try-with-resources for automatic resource management.");
    (py "perl", py "Use 'strict' and 'warnings' for safer Perl scripts.");
    (py "lua", py "Prefer local variables for better performance and safety.");
    (py "kotlin", py "Prefer val over var when possible.")
  ].

(** [advanced_code_recommendations(lang, code_context)], codetool.py:233-244;
    [code_context] is not used. *)
Definition advanced_code_recommendations (lang code_context : str) : str :=
  dict_get tips lang (py "No advice available.").

(** [batch_generate_templates()], codetool.py:252-258 *)
Definition batch_generate_templates : Files.fsio unit :=
  Files.for_each list_languages (fun lang =>
    Files.for_each [py "hello"; py "function"; py "class"] (fun kind =>
      let fname := py "examples/" ++ lang ++ py "_" ++ kind ++ py ".txt" in
      Files.fs_bind (Files.makedirs_exist_ok (py "examples")) (fun _ =>
      Files.write_text fname (generate_template lang kind)))).

End CodeTool.

(** ** Properties *)

Import Py Runtime CodeTool Files.

(** *** Vocabulary of the statements *)

(** The topics (and template kinds) of the catalog. *)
Definition topics : list str := [py "hello"; py "function"; py "class"].

(** The environment in which neither optional package is installed. *)
Definition no_packages : Env :=
  {| autopep8_fix_code := None; pyflakes_api_check := None |}.

(** What the first sentence of C2 says: the input comes back as it is. *)
Definition returned_unchanged (code : str) : outcome str := Ret code.

(** What the first sentence of C4 says: every line of the input, as
    [splitlines] cuts it, gets the four spaces. *)
Definition indent_every_line (code : str) : str :=
  concat (map (λ line, py "    " ++ line) (splitlines_keepends code)).

(** [recognized cmd]: a branch of the dispatcher other than its final
    [else] takes the stripped line [cmd]. *)
Definition recognized (cmd : str) : bool :=
  str_eqb cmd (py "exit") || str_eqb cmd (py "help")
  || startswith cmd (py "langs") || startswith cmd (py "snippet ")
  || startswith cmd (py "template ") || startswith cmd (py "format ")
  || startswith cmd (py "lint ") || startswith cmd (py "doc ").

(** What the banner of [interactive_cli] adds to the output. *)
Definition banner : list event :=
  [Printed (replicate 70 61%N);
   Printed (py "CodeTool - Interactive Code Helper");
   Printed (replicate 70 61%N);
   Printed (py "Supported languages: python, java, perl, lua, kotlin");
   Printed (py "Type 'help' for commands, 'exit' to quit.")].

(** A lookup that tells the empty topic from the others. *)
Definition doc_link_by_topic (lang topic : str) : str :=
  match topic with
  | [] => doc_link lang []
  | _ => py "# topic: " ++ topic
  end.

(** An environment whose installed packages raise. *)
Definition raising_packages : Env :=
  {| autopep8_fix_code := Some (λ _, Raise OtherError);
     pyflakes_api_check := Some (λ _ _, Raise OtherError) |}.

(** [usage_error verb args]: one-shot mode was given the verb [verb] with a
    number of further arguments [args] that the verb does not take. *)
Definition usage_error (verb : str) (args : list str) : bool :=
  (str_eqb verb (py "snippet") || str_eqb verb (py "template"))
  && negb (length args =? 2)
  || (str_eqb verb (py "format") || str_eqb verb (py "lint")
      || str_eqb verb (py "doc"))
     && negb (length args =? 1).

(** A word: a non-empty string without whitespace, as a command line
    argument typed at the prompt. *)
Definition is_word (s : str) : bool :=
  match s with
  | [] => false
  | _ => forallb (λ c, negb (isspace c)) s
  end.

(** The path of the file that the batch mode writes for a language and a
    kind. *)
Definition template_path (lang kind : str) : str :=
  py "examples/" ++ lang ++ py "_" ++ kind ++ py ".txt".

(** One pass of the inner loop body, and the files it has written so far
    taken apart from the files that were there. *)
Definition write_template (lk : str * str) : fsio unit :=
  fs_bind (makedirs_exist_ok (py "examples")) (λ _,
    write_text (template_path lk.1 lk.2) (generate_template lk.1 lk.2)).

Definition written (l : list (str * str)) (m : store) : store :=
  foldl (λ m lk, <[template_path lk.1 lk.2 := File (generate_template lk.1 lk.2)]>
                   (<[py "examples" := Dir]> m)) m l.

Definition catalog_pairs : list (str * str) :=
  lang ← list_languages; kind ← topics; [(lang, kind)].

(** A store with a note and an old template file. *)
Definition sample_store : Files.store :=
  <[template_path (py "python") (py "hello") := Files.File (py "old")]>
    (<[py "notes.txt" := Files.File (py "keep")]> ∅).

(** A store in which [examples] is a regular file. *)
Definition blocked_store : Files.store :=
  <[py "examples" := Files.File (py "not a directory")]> ∅.

(** *** The catalog *)

Ltac catalog_entry d :=
  exists d; split; [by vm_compute|]; split;
  [ unfold topics; intros topic; rewrite !elem_of_cons, elem_of_nil;
    intros [-> | [-> | [-> | []]]]; eexists; (split; [by vm_compute | done])
  | intros topic Hn; by apply not_elem_of_list_to_map_1 ].

Lemma snippets_lookup_supported lang :
  lang ∈ list_languages →
  ∃ d, snippets !! lang = Some d ∧
       (∀ topic, topic ∈ topics → ∃ s, d !! topic = Some s ∧ s ≠ []) ∧
       (∀ topic, topic ∉ topics → d !! topic = None).
Proof.
  unfold list_languages. rewrite !elem_of_cons, elem_of_nil.
  intros [-> | [-> | [-> | [-> | [-> | []]]]]].
  - catalog_entry python_snippets.
  - catalog_entry java_snippets.
  - catalog_entry perl_snippets.
  - catalog_entry lua_snippets.
  - catalog_entry kotlin_snippets.
Qed.

Lemma snippets_lookup_unsupported lang :
  lang ∉ list_languages → snippets !! lang = None.
Proof. intros Hn. by apply not_elem_of_list_to_map_1. Qed.

Lemma get_snippet_lookup (lang topic : str) :
  get_snippet lang topic
  = match snippets !! lang with
    | Some d => default (py "# No snippet found for this topic/language.") (d !! topic)
    | None => py "# No snippet found for this topic/language."
    end.
Proof.
  unfold get_snippet, dict_get. destruct (snippets !! lang); [done|].
  change (default ∅ None) with (∅ : gmap str str). by rewrite lookup_empty.
Qed.

(** C1. For a supported language and a topic among hello, function and
    class, [get_snippet] returns a non-empty string; for every other pair of
    strings it returns exactly the "not found" sentinel.  [get_snippet] is a
    total function to strings: it has a value on every pair and raises
    nothing. *)
Theorem get_snippet_supported_or_sentinel (lang topic : str) :
  (lang ∈ list_languages ∧ topic ∈ topics → get_snippet lang topic ≠ []) ∧
  (¬ (lang ∈ list_languages ∧ topic ∈ topics) →
   get_snippet lang topic = py "# No snippet found for this topic/language.").
Proof.
  rewrite get_snippet_lookup. split.
  - intros [Hl Ht].
    destruct (snippets_lookup_supported lang Hl) as (d & -> & Hin & _).
    destruct (Hin topic Ht) as (s & -> & Hs). exact Hs.
  - intros Hn. destruct (decide (lang ∈ list_languages)) as [Hl | Hl].
    + destruct (snippets_lookup_supported lang Hl) as (d & -> & _ & Hout).
      rewrite Hout; [done | tauto].
    + by rewrite (snippets_lookup_unsupported lang Hl).
Qed.

Lemma get_snippet_supported_or_sentinel_witness :
  get_snippet (py "lua") (py "class") ≠ [] ∧
  get_snippet (py "lua") (py "klass")
  = py "# No snippet found for this topic/language.".
Proof.
  split.
  - apply (get_snippet_supported_or_sentinel (py "lua") (py "class")).
    split; apply (bool_decide_unpack _); vm_compute; exact I.
  - apply (get_snippet_supported_or_sentinel (py "lua") (py "klass")).
    intros [_ Ht]. revert Ht. apply (bool_decide_unpack _). vm_compute. exact I.
Defined.

(** C8. [list_languages()] is the sequence python, java, perl, lua, kotlin,
    in this order. *)
Theorem list_languages_exact :
  list_languages = [py "python"; py "java"; py "perl"; py "lua"; py "kotlin"].
Proof. reflexivity. Qed.

(** C3. For a kind among hello, function and class, [generate_template]
    returns what [get_snippet] returns for that kind, whatever the language;
    for every other kind it returns the "not available" sentinel. *)
Theorem generate_template_delegates (lang kind : str) :
  (kind ∈ topics → generate_template lang kind = get_snippet lang kind) ∧
  (kind ∉ topics → generate_template lang kind = py "# Template not available.").
Proof.
  unfold generate_template, str_eqb, topics.
  rewrite !elem_of_cons, elem_of_nil. split.
  - intros [-> | [-> | [-> | []]]]; reflexivity.
  - intros Hn. repeat case_bool_decide; tauto.
Qed.

Lemma generate_template_delegates_witness :
  generate_template (py "perl") (py "hello") = get_snippet (py "perl") (py "hello") ∧
  generate_template (py "perl") (py "script") = py "# Template not available.".
Proof.
  split.
  - apply (generate_template_delegates (py "perl") (py "hello")).
    apply (bool_decide_unpack _). vm_compute. exact I.
  - apply (generate_template_delegates (py "perl") (py "script")).
    apply (bool_decide_unpack _). vm_compute. exact I.
Defined.

(** *** The format/lint adapter *)

(** C5. Without pyflakes, [lint_code] on python returns the "skipped"
    message (it returns, it does not raise); on every other language it
    returns the "not supported" message. *)
Theorem lint_code_messages (env : Env) (lang code : str) :
  (pyflakes_api_check env = None →
   lint_code env (py "python") code
   = Ret (py "# pyflakes not installed, skipping lint.")) ∧
  (lang ≠ py "python" →
   lint_code env lang code
   = Ret (py "# Lint not supported for this language in this demo.")).
Proof.
  unfold lint_code, str_eqb. split.
  - intros ->. reflexivity.
  - intros Hn. by rewrite bool_decide_eq_false_2.
Qed.

Lemma lint_code_messages_witness :
  lint_code no_packages (py "python") (py "import os")
  = Ret (py "# pyflakes not installed, skipping lint.") ∧
  lint_code no_packages (py "lua") (py "import os")
  = Ret (py "# Lint not supported for this language in this demo.").
Proof.
  split.
  - apply (lint_code_messages no_packages (py "lua") (py "import os")).
    reflexivity.
  - apply (lint_code_messages no_packages (py "lua") (py "import os")).
    apply (bool_decide_unpack _). vm_compute. exact I.
Defined.

(** C2 as stated fails: without autopep8 the python branch does not return
    its input. *)
Lemma format_code_python_not_unchanged :
  autopep8_fix_code no_packages = None ∧
  format_code no_packages (py "python") (py "x = 1")
  ≠ returned_unchanged (py "x = 1").
Proof. split; [reflexivity|]. vm_compute. discriminate. Qed.

(** C2, amended. Without autopep8, [format_code] on python returns the line
    "# autopep8 not installed, returning original code." followed by the
    input, unchanged. *)
Theorem format_code_python_without_autopep8 (env : Env) (code : str) :
  autopep8_fix_code env = None →
  format_code env (py "python") code
  = Ret (py "# autopep8 not installed, returning original code." ++ [LF] ++ code).
Proof. unfold format_code. intros ->. reflexivity. Qed.

Lemma format_code_python_without_autopep8_witness :
  format_code no_packages (py "python") (py "x = 1")
  = Ret (py "# autopep8 not installed, returning original code." ++ [LF]
         ++ py "x = 1").
Proof.
  apply (format_code_python_without_autopep8 no_packages (py "x = 1")).
  reflexivity.
Defined.

(** Lines and blank lines. *)

Lemma concat_splitlines_from_bounded (n : nat) :
  ∀ cur s : str, length s ≤ n → concat (splitlines_from cur s) = cur ++ s.
Proof.
  induction n as [|n IH]; intros cur [|c s] Hn; simpl in *; try lia.
  - destruct cur; simpl; by rewrite ?app_nil_r.
  - destruct cur; simpl; by rewrite ?app_nil_r.
  - destruct (is_linebreak c).
    + destruct s as [|d s].
      * simpl. by rewrite app_nil_r.
      * destruct ((c =? CR)%N && (d =? LF)%N);
          rewrite concat_cons, IH by (simpl in *; lia);
          simpl; by rewrite <- app_assoc.
    + rewrite IH by lia. by rewrite <- app_assoc.
Qed.

Lemma concat_splitlines_from (cur s : str) :
  concat (splitlines_from cur s) = cur ++ s.
Proof. by apply (concat_splitlines_from_bounded (length s)). Qed.

Lemma concat_splitlines_keepends (s : str) :
  concat (splitlines_keepends s) = s.
Proof. apply concat_splitlines_from. Qed.

Lemma lstrip_nil (s : str) : lstrip s = [] ↔ forallb isspace s = true.
Proof.
  induction s as [|c s IH]; simpl; [done|].
  destruct (isspace c); simpl; [exact IH | done].
Qed.

Lemma forallb_isspace_lstrip (s : str) :
  forallb isspace (lstrip s) = forallb isspace s.
Proof.
  induction s as [|c s IH]; simpl; [done|].
  destruct (isspace c) eqn:Hc; simpl; [exact IH | by rewrite Hc].
Qed.

Lemma forallb_rev {A} (f : A → bool) (l : list A) :
  forallb f (rev l) = forallb f l.
Proof.
  induction l as [|a l IH]; simpl; [done|].
  rewrite forallb_app, IH. simpl. rewrite andb_true_r. apply andb_comm.
Qed.

Lemma strip_nil (s : str) : strip s = [] ↔ forallb isspace s = true.
Proof.
  unfold strip, rstrip.
  rewrite <- (forallb_isspace_lstrip s), <- (forallb_rev isspace (lstrip s)).
  rewrite <- lstrip_nil. split.
  - intros H. apply (f_equal (@rev N)) in H. by rewrite rev_involutive in H.
  - intros ->. reflexivity.
Qed.

Lemma indent_line_blank (prefix line : str) :
  indent_line prefix line
  = if forallb isspace line then line else prefix ++ line.
Proof.
  unfold indent_line. destruct (forallb isspace line) eqn:Hb.
  - apply strip_nil in Hb. by rewrite Hb.
  - destruct (strip line) eqn:Hs; [|done].
    apply strip_nil in Hs. congruence.
Qed.

(** C4 as stated fails: a line that is empty or made of whitespace is not
    prefixed. *)
Lemma format_code_java_skips_blank_line :
  format_code no_packages (py "java") (py "a" ++ [LF; LF] ++ py "b")
  = Ret (py "    a" ++ [LF; LF] ++ py "    b") ∧
  format_code no_packages (py "java") (py "a" ++ [LF; LF] ++ py "b")
  ≠ Ret (indent_every_line (py "a" ++ [LF; LF] ++ py "b")).
Proof. split; [by vm_compute|]. vm_compute. discriminate. Qed.

(** C4, amended. [format_code] on java returns the input with the four
    spaces put before each line that has a character other than whitespace;
    the other lines, empty ones included, stay as they are.  The lines are
    those of [splitlines], which put together give the input back.  On
    every language other than python and java the input is returned
    unchanged. *)
Theorem format_code_java_and_others (env : Env) (lang code : str) :
  format_code env (py "java") code
  = Ret (concat (map (λ line, if forallb isspace line then line
                              else py "    " ++ line)
                     (splitlines_keepends code))) ∧
  concat (splitlines_keepends code) = code ∧
  (lang ≠ py "python" → lang ≠ py "java" → format_code env lang code = Ret code).
Proof.
  split; [|split].
  - change (format_code env (py "java") code)
      with (Ret (textwrap_indent code (py "    "))).
    unfold textwrap_indent. do 2 f_equal.
    apply map_ext. intros line. apply indent_line_blank.
  - apply concat_splitlines_keepends.
  - intros Hp Hj. unfold format_code, str_eqb.
    by rewrite !bool_decide_eq_false_2.
Qed.

Lemma format_code_java_and_others_witness :
  format_code no_packages (py "kotlin") (py "val x = 1") = Ret (py "val x = 1").
Proof.
  apply (format_code_java_and_others no_packages (py "kotlin") (py "val x = 1"));
    apply (bool_decide_unpack _); vm_compute; exact I.
Defined.

(** *** The console: reading one line *)

Lemma readline_terminated (line rest : str) :
  LF ∉ line → readline (line ++ LF :: rest) = (line ++ [LF], rest).
Proof.
  induction line as [|c line IH]; intros Hn; simpl; [done|].
  apply not_elem_of_cons in Hn as [Hc Hn].
  destruct (N.eqb_spec c LF) as [->|_]; [done|].
  by rewrite (IH Hn).
Qed.

Lemma chomp_terminated (line : str) : chomp (line ++ [LF]) = line.
Proof.
  induction line as [|c line IH]; [done|].
  simpl. rewrite IH. by destruct line.
Qed.

Lemma input_line (p line rest : str) (out : list event) :
  LF ∉ line →
  input p (World (line ++ LF :: rest) out)
  = (Ret line, World rest (out ++ [Prompted p])).
Proof.
  intros Hn. unfold input. simpl stdin.
  rewrite (readline_terminated line rest Hn), chomp_terminated.
  by destruct line.
Qed.

(** *** Stripping and prefixes *)

Lemma startswith_prefix (s p : str) :
  startswith s p = true → ∃ t, s = p ++ t.
Proof.
  revert s. induction p as [|a p IH]; intros s; simpl.
  - intros _. by exists s.
  - destruct s as [|b s]; [done|].
    destruct (N.eqb_spec a b) as [->|_]; [|done]. simpl.
    intros Hs. destruct (IH s Hs) as [t ->]. by exists t.
Qed.

Lemma lstrip_snoc (s : str) (c : N) :
  isspace c = false → lstrip (s ++ [c]) = lstrip s ++ [c].
Proof.
  intros Hc. induction s as [|d s IH]; simpl; [by rewrite Hc|].
  by destruct (isspace d).
Qed.

Lemma rstrip_cons (c : N) (s : str) :
  isspace c = false → rstrip (c :: s) = c :: rstrip s.
Proof.
  intros Hc. unfold rstrip. simpl.
  by rewrite (lstrip_snoc _ _ Hc), rev_app_distr.
Qed.

Lemma strip_cons (c : N) (s : str) :
  isspace c = false → strip (c :: s) = c :: rstrip s.
Proof. intros Hc. unfold strip. simpl. rewrite Hc. by apply rstrip_cons. Qed.

(** *** The read loop *)

Lemma repl_loop_unfold env DL (w : world) :
  repl_loop env DL w
  = match repl_iteration env DL w with
    | (Ret true, w') => (Ret tt, w')
    | (Ret false, w') => repl_loop env DL w'
    | (Raise e, w') => (Raise e, w')
    end.
Proof.
  funelim (repl_loop env DL w);
    match goal with
    | E : repl_iteration _ _ _ = _ |- _ => by rewrite E
    end.
Qed.

Lemma repl_iteration_line env DL (line rest : str) (out : list event) :
  LF ∉ line →
  repl_iteration env DL (World (line ++ LF :: rest) out)
  = repl_dispatch env DL (strip line)
      (World rest (out ++ [Prompted (py "codetool> ")])).
Proof.
  intros Hn. unfold repl_iteration, mbind, io_mbind, io_bind.
  by rewrite (input_line _ line rest out Hn).
Qed.

Lemma repl_dispatch_exit env DL (w : world) :
  repl_dispatch env DL (py "exit") w
  = (Ret true, World (stdin w) (stdout w ++ [Printed (py "Goodbye!")])).
Proof. reflexivity. Qed.

Lemma repl_dispatch_unrecognized env DL (cmd : str) (w : world) :
  recognized cmd = false →
  repl_dispatch env DL cmd w
  = (Ret false,
     World (stdin w)
           (stdout w ++ [Printed (py "Unknown command. Type 'help'.")])).
Proof.
  unfold recognized, repl_dispatch. rewrite !orb_false_iff.
  intros [[[[[[[-> ->] ->] ->] ->] ->] ->] ->]. reflexivity.
Qed.

Lemma then_false_never_breaks (m : io unit) (w w' : world) :
  (m;; mret false) w ≠ (Ret true, w').
Proof.
  unfold mbind, io_mbind, io_bind, mret, io_mret, io_ret.
  destruct (m w) as [[[]|e] w1]; congruence.
Qed.

Lemma repl_dispatch_break env DL (cmd : str) (w w' : world) :
  repl_dispatch env DL cmd w = (Ret true, w') → cmd = py "exit".
Proof.
  unfold repl_dispatch, str_eqb. case_bool_decide as Hexit; [done|].
  intros Hb. exfalso. revert Hb.
  repeat match goal with
         | |- context [if ?b then _ else _] => destruct b
         end; apply then_false_never_breaks.
Qed.

Lemma format_code_returns env (lang code : str) :
  autopep8_fix_code env = None → ∃ s, format_code env lang code = Ret s.
Proof.
  intros Ha. unfold format_code. rewrite Ha.
  repeat match goal with
         | |- context [if ?b then _ else _] => destruct b
         end; by eexists.
Qed.

Lemma lint_code_returns env (lang code : str) :
  pyflakes_api_check env = None → ∃ s, lint_code env lang code = Ret s.
Proof.
  intros Ha. unfold lint_code. rewrite Ha.
  destruct (str_eqb lang (py "python")); by eexists.
Qed.

(** Without the optional packages nothing in the dispatcher raises: every
    line other than [exit] leads to the next pass of the loop. *)
Lemma repl_dispatch_continues env DL (cmd : str) (w : world) :
  autopep8_fix_code env = None → pyflakes_api_check env = None →
  cmd ≠ py "exit" →
  ∃ w', repl_dispatch env DL cmd w = (Ret false, w').
Proof.
  intros Ha Hp Hexit. unfold repl_dispatch, str_eqb.
  rewrite (bool_decide_eq_false_2 _ Hexit).
  repeat match goal with
         | |- context [if bool_decide ?P then _ else _] => destruct (bool_decide P)
         | |- context [if startswith ?a ?b then _ else _] => destruct (startswith a b)
         end; try (by eexists); cbv zeta;
  destruct (split cmd) as [|p0 [|p1 [|p2 [|p3 parts]]]];
    try (by eexists);
    unfold mbind, io_mbind, io_bind; simpl.
  - destruct (format_code_returns env p1 (stdin w) Ha) as [s ->]. by eexists.
  - destruct (lint_code_returns env p1 (stdin w) Hp) as [s ->]. by eexists.
Qed.

(** *** One-shot mode *)

(** C6. Run with the arguments [snippet python hello], the program prints
    print("Hello, world!") and ends with status 0; run with the single
    argument [snippet], it prints the usage line of that verb and ends with
    a status other than 0. *)
Theorem main_one_shot_snippet (env : Env) (prog : str) (w : world) :
  main env [prog; py "snippet"; py "python"; py "hello"] w
  = (Ret tt,
     World (stdin w)
           (stdout w ++ [Printed (py "print(" ++ py dq ++ py "Hello, world!"
                                ++ py dq ++ py ")")])) ∧
  exit_status (main env [prog; py "snippet"; py "python"; py "hello"] w).1 = 0%Z ∧
  main env [prog; py "snippet"] w
  = (Raise (SystemExit 1),
     World (stdin w) (stdout w ++ [Printed (py "Usage: snippet <lang> <topic>")])) ∧
  exit_status (main env [prog; py "snippet"] w).1 ≠ 0%Z.
Proof. repeat split; vm_compute; congruence. Qed.

(** *** Interactive mode *)

(** C7 as stated fails: the loop also ends on a line that is not [exit],
    namely on [exit] with whitespace around it. *)
Lemma repl_loop_ends_on_padded_exit :
  py " exit" ≠ py "exit" ∧
  repl_loop no_packages doc_link (World (py " exit" ++ [LF] ++ py "help") [])
  = (Ret tt,
     World (py "help") [Prompted (py "codetool> "); Printed (py "Goodbye!")]).
Proof. split; [by vm_compute|]. by vm_compute. Qed.

(** C7, amended. The loop ends by [break] exactly on an input line that,
    once its leading and trailing whitespace is stripped, is [exit], and it
    prints "Goodbye!" just before; on every other line it does not break,
    and with neither optional package installed it goes on to the next
    pass; on an unrecognized line it prints the generic error message and
    goes on with the next line; the session [doc lua], [exit] prints the Lua
    manual URL, then "Goodbye!", and ends. *)
Theorem repl_loop_exit_and_unknown (env : Env) (line rest : str)
    (out : list event) :
  LF ∉ line →
  let w := World (line ++ LF :: rest) out in
  let prompted := out ++ [Prompted (py "codetool> ")] in
  (strip line = py "exit" →
   repl_loop env doc_link w
   = (Ret tt, World rest (prompted ++ [Printed (py "Goodbye!")]))) ∧
  (strip line ≠ py "exit" →
   (∀ w', repl_iteration env doc_link w ≠ (Ret true, w')) ∧
   (autopep8_fix_code env = None → pyflakes_api_check env = None →
    ∃ w', repl_iteration env doc_link w = (Ret false, w'))) ∧
  (recognized (strip line) = false →
   repl_iteration env doc_link w
   = (Ret false,
      World rest (prompted ++ [Printed (py "Unknown command. Type 'help'.")])) ∧
   repl_loop env doc_link w
   = repl_loop env doc_link
       (World rest (prompted ++ [Printed (py "Unknown command. Type 'help'.")]))) ∧
  interactive_cli env (World (py "doc lua" ++ [LF] ++ py "exit" ++ [LF]) [])
  = (Ret tt,
     World [] (banner ++ [Prompted (py "codetool> ");
                          Printed (py "https://www.lua.org/manual/5.4/");
                          Prompted (py "codetool> ");
                          Printed (py "Goodbye!")])).
Proof.
  intros Hn w prompted. subst w prompted.
  pose proof (repl_iteration_line env doc_link line rest out Hn) as Hit.
  split; [|split; [|split]].
  - intros Hs. rewrite repl_loop_unfold, Hit, Hs. reflexivity.
  - intros Hs. split.
    + intros w' Hb. rewrite Hit in Hb. by apply repl_dispatch_break in Hb.
    + intros Ha Hp. rewrite Hit. by apply repl_dispatch_continues.
  - intros Hr. split.
    + rewrite Hit. by apply repl_dispatch_unrecognized.
    + rewrite repl_loop_unfold, Hit.
      by rewrite (repl_dispatch_unrecognized _ _ _ _ Hr).
  - by vm_compute.
Qed.

Lemma repl_loop_exit_and_unknown_witness :
  repl_loop no_packages doc_link (World (py "exit  " ++ LF :: py "langs") [])
  = (Ret tt,
     World (py "langs") ([] ++ [Prompted (py "codetool> ")]
                         ++ [Printed (py "Goodbye!")])) ∧
  (∀ w', repl_iteration no_packages doc_link
           (World (py "quit" ++ LF :: py "exit") [])
         ≠ (Ret true, w')) ∧
  (∃ w', repl_iteration no_packages doc_link
           (World (py "quit" ++ LF :: py "exit") [])
         = (Ret false, w')) ∧
  repl_iteration no_packages doc_link (World (py "quit" ++ LF :: py "exit") [])
  = (Ret false,
     World (py "exit") ([] ++ [Prompted (py "codetool> ")]
                        ++ [Printed (py "Unknown command. Type 'help'.")])).
Proof.
  assert (Hexit : LF ∉ py "exit  ") by (apply (bool_decide_unpack _); vm_compute; exact I).
  assert (Hquit : LF ∉ py "quit") by (apply (bool_decide_unpack _); vm_compute; exact I).
  split; [|split; [|split]].
  - apply (repl_loop_exit_and_unknown no_packages (py "exit  ") (py "langs") [] Hexit).
    vm_compute. reflexivity.
  - apply (repl_loop_exit_and_unknown no_packages (py "quit") (py "exit") [] Hquit).
    vm_compute. discriminate.
  - apply (repl_loop_exit_and_unknown no_packages (py "quit") (py "exit") [] Hquit);
      [vm_compute; discriminate | reflexivity | reflexivity].
  - apply (repl_loop_exit_and_unknown no_packages (py "quit") (py "exit") [] Hquit).
    vm_compute. reflexivity.
Defined.

(** Decide the tests of an [if]/[elif] chain whose outcome is fixed by the
    known part of the command. *)
Ltac decide_tests :=
  repeat match goal with
         | |- context [if ?b then _ else _] =>
             let v := eval vm_compute in b in
             match v with
             | true => change b with true
             | false => change b with false
             end; cbv iota
         end.

Lemma split_doc (t : str) : split (py "doc " ++ t) = py "doc" :: split t.
Proof. reflexivity. Qed.

Lemma repl_dispatch_doc env DL (t : str) (w : world) :
  repl_dispatch env DL (py "doc " ++ t) w
  = match split t with
    | [lang] =>
        (Ret false, World (stdin w) (stdout w ++ [Printed (DL lang [])]))
    | _ =>
        (Ret false, World (stdin w) (stdout w ++ [Printed (py "Usage: doc <lang>")]))
    end.
Proof.
  unfold repl_dispatch. decide_tests. cbv zeta. rewrite split_doc.
  by destruct (split t) as [|lang [|other parts]].
Qed.

Lemma main_with_doc env DL (prog : str) (args : list str) (w : world) :
  main_with env DL (prog :: py "doc" :: args) w
  = match args with
    | [lang] =>
        (Ret tt, World (stdin w) (stdout w ++ [Printed (DL lang [])]))
    | _ =>
        (Raise (SystemExit 1),
         World (stdin w) (stdout w ++ [Printed (py "Usage: doc <lang>")]))
    end.
Proof. by destruct args as [|lang [|other args]]. Qed.

Lemma io_bind_ext {A B} (m : io A) (k1 k2 : A → io B) (w : world) :
  (∀ a w', k1 a w' = k2 a w') → (m ≫= k1) w = (m ≫= k2) w.
Proof.
  intros Hk. unfold mbind, io_mbind, io_bind.
  destruct (m w) as [[a|e] w1]; [apply Hk | reflexivity].
Qed.

Lemma io_bind_ext_l {A B} (m1 m2 : io A) (k : A → io B) (w : world) :
  m1 w = m2 w → (m1 ≫= k) w = (m2 ≫= k) w.
Proof. intros Hm. unfold mbind, io_mbind, io_bind. by rewrite Hm. Qed.

(** The dispatcher only ever looks documentation up at the empty topic: two
    lookups that agree there give the same runs. *)
Section SameAtEmptyTopic.

Variable env : Env.
Variables DL1 DL2 : str → str → str.
Hypothesis same_at_empty : ∀ lang, DL1 lang [] = DL2 lang [].

Lemma repl_dispatch_same (cmd : str) (w : world) :
  repl_dispatch env DL1 cmd w = repl_dispatch env DL2 cmd w.
Proof.
  unfold repl_dispatch.
  repeat match goal with
         | |- context [if ?b then _ else _] => destruct b
         end; try reflexivity.
  apply io_bind_ext_l, io_bind_ext. intros lang w1. by rewrite same_at_empty.
Qed.

Lemma repl_iteration_same (w : world) :
  repl_iteration env DL1 w = repl_iteration env DL2 w.
Proof.
  unfold repl_iteration. apply io_bind_ext. intros line w1.
  apply repl_dispatch_same.
Qed.

Lemma repl_loop_same_bounded (n : nat) :
  ∀ w, length (stdin w) < n → repl_loop env DL1 w = repl_loop env DL2 w.
Proof.
  induction n as [|n IH]; intros w Hn; [lia|].
  rewrite (repl_loop_unfold env DL1), (repl_loop_unfold env DL2).
  rewrite repl_iteration_same.
  destruct (repl_iteration env DL2 w) as [[[|]|e] w1] eqn:Hstep; try reflexivity.
  apply IH. apply repl_iteration_shorter in Hstep. lia.
Qed.

Lemma repl_loop_same (w : world) :
  repl_loop env DL1 w = repl_loop env DL2 w.
Proof. apply (repl_loop_same_bounded (S (length (stdin w)))). lia. Qed.

Lemma interactive_cli_with_same (w : world) :
  interactive_cli_with env DL1 w = interactive_cli_with env DL2 w.
Proof.
  unfold interactive_cli_with, mbind, io_mbind, io_bind. simpl.
  apply repl_loop_same.
Qed.

Lemma main_with_same (argv : list str) (w : world) :
  main_with env DL1 argv w = main_with env DL2 argv w.
Proof.
  unfold main_with.
  destruct (length argv =? 1); [apply interactive_cli_with_same|].
  destruct (2 <=? length argv); [|reflexivity].
  apply io_bind_ext. intros verb w1.
  repeat match goal with
         | |- context [if str_eqb ?a ?b then _ else _] => destruct (str_eqb a b)
         end; try reflexivity.
  apply io_bind_ext. intros _ w2. apply io_bind_ext. intros lang w3.
  by rewrite same_at_empty.
Qed.

End SameAtEmptyTopic.

(** C9. [doc_link] does not look at its topic: any two topics give the same
    link.  Both callers pass the empty string: whatever lookup the
    dispatcher is run with, the interactive [doc] command and the one-shot
    [doc] verb print its value at the empty topic (or the usage line, without
    a lookup), and two lookups that agree at the empty topic give the same
    interactive and one-shot runs. *)
Theorem doc_link_topic_unused :
  (∀ lang t1 t2 : str, doc_link lang t1 = doc_link lang t2) ∧
  (∀ env DL (t : str) (w : world),
     repl_dispatch env DL (py "doc " ++ t) w
     = match split t with
       | [lang] =>
           (Ret false, World (stdin w) (stdout w ++ [Printed (DL lang [])]))
       | _ =>
           (Ret false,
            World (stdin w) (stdout w ++ [Printed (py "Usage: doc <lang>")]))
       end) ∧
  (∀ env DL (prog : str) (args : list str) (w : world),
     main_with env DL (prog :: py "doc" :: args) w
     = match args with
       | [lang] =>
           (Ret tt, World (stdin w) (stdout w ++ [Printed (DL lang [])]))
       | _ =>
           (Raise (SystemExit 1),
            World (stdin w) (stdout w ++ [Printed (py "Usage: doc <lang>")]))
       end) ∧
  (∀ env (DL1 DL2 : str → str → str),
     (∀ lang, DL1 lang [] = DL2 lang []) →
     ∀ (argv : list str) (w : world),
       interactive_cli_with env DL1 w = interactive_cli_with env DL2 w ∧
       main_with env DL1 argv w = main_with env DL2 argv w).
Proof.
  split; [|split; [|split]].
  - reflexivity.
  - apply repl_dispatch_doc.
  - apply main_with_doc.
  - intros env DL1 DL2 Hsame argv w. split.
    + by apply interactive_cli_with_same.
    + by apply main_with_same.
Qed.

Lemma doc_link_topic_unused_witness :
  interactive_cli_with no_packages doc_link
    (World (py "doc perl" ++ [LF] ++ py "exit") [])
  = interactive_cli_with no_packages doc_link_by_topic
      (World (py "doc perl" ++ [LF] ++ py "exit") []) ∧
  main_with no_packages doc_link [py "codetool.py"; py "doc"; py "perl"]
    (World (py "doc perl" ++ [LF] ++ py "exit") [])
  = main_with no_packages doc_link_by_topic
      [py "codetool.py"; py "doc"; py "perl"]
      (World (py "doc perl" ++ [LF] ++ py "exit") []).
Proof.
  apply (proj2 (proj2 (proj2 doc_link_topic_unused))
           no_packages doc_link doc_link_by_topic).
  intros lang. simpl. reflexivity.
Defined.

Lemma repl_dispatch_langs env DL (t : str) (w : world) :
  repl_dispatch env DL (py "langs" ++ t) w
  = (Ret false,
     World (stdin w)
           (stdout w
            ++ [Printed (py "Supported languages: python, java, perl, lua, kotlin")])).
Proof. unfold repl_dispatch. decide_tests. reflexivity. Qed.

Lemma strip_langs (t : str) : strip (py "langs" ++ t) = py "langs" ++ rstrip t.
Proof.
  change (py "langs" ++ t) with (108 :: 97 :: 110 :: 103 :: 115 :: t)%N.
  rewrite strip_cons by reflexivity.
  by rewrite !rstrip_cons by reflexivity.
Qed.

(** C10. The interactive dispatcher goes by prefix: every input line that
    starts with [langs] (such as [langsxyz]) prints the list of supported
    languages, while the bare verbs [snippet], [template], [format], [lint]
    and [doc] take no branch and print "Unknown command. Type 'help'.",
    not their usage line. *)
Theorem repl_dispatches_on_prefix (env : Env) (line rest : str)
    (out : list event) :
  LF ∉ line →
  let w := World (line ++ LF :: rest) out in
  let prompted := out ++ [Prompted (py "codetool> ")] in
  (startswith line (py "langs") = true →
   repl_iteration env doc_link w
   = (Ret false,
      World rest
        (prompted
         ++ [Printed (py "Supported languages: python, java, perl, lua, kotlin")]))) ∧
  (line ∈ [py "snippet"; py "template"; py "format"; py "lint"; py "doc"] →
   repl_iteration env doc_link w
   = (Ret false,
      World rest (prompted ++ [Printed (py "Unknown command. Type 'help'.")]))).
Proof.
  intros Hn w prompted. subst w prompted.
  rewrite (repl_iteration_line env doc_link line rest out Hn). split.
  - intros Hp. apply startswith_prefix in Hp as [t ->].
    rewrite strip_langs. apply repl_dispatch_langs.
  - rewrite !elem_of_cons, elem_of_nil.
    intros [-> | [-> | [-> | [-> | [-> | []]]]]];
      by apply repl_dispatch_unrecognized.
Qed.

Lemma repl_dispatches_on_prefix_witness :
  repl_iteration no_packages doc_link (World (py "langsxyz" ++ LF :: py "exit") [])
  = (Ret false,
     World (py "exit")
       ([] ++ [Prompted (py "codetool> ")]
        ++ [Printed (py "Supported languages: python, java, perl, lua, kotlin")])) ∧
  repl_iteration no_packages doc_link (World (py "snippet" ++ LF :: py "exit") [])
  = (Ret false,
     World (py "exit")
       ([] ++ [Prompted (py "codetool> ")]
        ++ [Printed (py "Unknown command. Type 'help'.")])).
Proof.
  split.
  - apply (repl_dispatches_on_prefix no_packages (py "langsxyz") (py "exit") []).
    + apply (bool_decide_unpack _). vm_compute. exact I.
    + vm_compute. reflexivity.
  - apply (repl_dispatches_on_prefix no_packages (py "snippet") (py "exit") []).
    + apply (bool_decide_unpack _). vm_compute. exact I.
    + apply (bool_decide_unpack _). vm_compute. exact I.
Defined.

(** ** Further properties of the catalog *)

Lemma get_snippet_hit (lang topic : str) :
  lang ∈ list_languages → topic ∈ topics →
  get_snippet lang topic ≠ py "# No snippet found for this topic/language." ∧
  get_snippet lang topic ≠ py "# Template not available.".
Proof.
  unfold list_languages, topics. rewrite !elem_of_cons, !elem_of_nil.
  intros [-> | [-> | [-> | [-> | [-> | []]]]]] [-> | [-> | [-> | []]]];
    split; by vm_compute.
Qed.

Lemma get_snippet_miss (lang topic : str) :
  get_snippet lang topic = py "# No snippet found for this topic/language."
  ↔ ¬ (lang ∈ list_languages ∧ topic ∈ topics).
Proof.
  split.
  - intros Hs [Hl Ht]. by destruct (get_snippet_hit lang topic Hl Ht).
  - rewrite get_snippet_lookup.
    intros Hn. destruct (decide (lang ∈ list_languages)) as [Hl | Hl].
    + destruct (snippets_lookup_supported lang Hl) as (d & -> & _ & Hout).
      rewrite Hout; [done | tauto].
    + by rewrite (snippets_lookup_unsupported lang Hl).
Qed.

(** X1. A miss can be told from a hit: [get_snippet] returns the "not
    found" sentinel exactly for the pairs outside the catalog, and on a pair
    of the catalog it returns neither that sentinel nor the one of
    [generate_template]. *)
Theorem get_snippet_sentinel_iff (lang topic : str) :
  (get_snippet lang topic = py "# No snippet found for this topic/language."
   ↔ ¬ (lang ∈ list_languages ∧ topic ∈ topics)) ∧
  (lang ∈ list_languages → topic ∈ topics →
   get_snippet lang topic ≠ py "# Template not available.").
Proof.
  split; [apply get_snippet_miss|].
  intros Hl Ht. by destruct (get_snippet_hit lang topic Hl Ht).
Qed.

Lemma get_snippet_sentinel_iff_witness :
  get_snippet (py "java") (py "class") ≠ py "# Template not available.".
Proof.
  apply (get_snippet_sentinel_iff (py "java") (py "class"));
    apply (bool_decide_unpack _); vm_compute; exact I.
Defined.

(** X2. [generate_template] answers "# Template not available." exactly for
    the kinds other than hello, function and class; for one of these kinds
    and a language outside the catalog it answers the "not found" sentinel
    of [get_snippet] instead. *)
Theorem generate_template_sentinels (lang kind : str) :
  (generate_template lang kind = py "# Template not available." ↔ kind ∉ topics) ∧
  (kind ∈ topics → lang ∉ list_languages →
   generate_template lang kind = py "# No snippet found for this topic/language.").
Proof.
  assert (Hk : kind ∈ topics → generate_template lang kind = get_snippet lang kind).
  { unfold generate_template, str_eqb, topics.
    rewrite !elem_of_cons, elem_of_nil.
    intros [-> | [-> | [-> | []]]]; reflexivity. }
  split; [split|].
  - intros Hs Ht. rewrite (Hk Ht) in Hs.
    destruct (decide (lang ∈ list_languages)) as [Hl | Hl].
    + by destruct (get_snippet_hit lang kind Hl Ht).
    + assert (Hm : get_snippet lang kind
                   = py "# No snippet found for this topic/language.")
        by (apply get_snippet_miss; tauto).
      rewrite Hm in Hs. by vm_compute in Hs.
  - intros Hn. unfold generate_template, str_eqb. revert Hn.
    unfold topics. rewrite !elem_of_cons, elem_of_nil.
    intros Hn. repeat case_bool_decide; tauto.
  - intros Ht Hl. rewrite (Hk Ht). apply get_snippet_miss. tauto.
Qed.

Lemma generate_template_sentinels_witness :
  generate_template (py "ruby") (py "class")
  = py "# No snippet found for this topic/language.".
Proof.
  apply (generate_template_sentinels (py "ruby") (py "class"));
    apply (bool_decide_unpack _); vm_compute; exact I.
Defined.

(** X3. The three tables cover the same languages, those of
    [list_languages]: [doc_link] and [advanced_code_recommendations] answer
    their default text exactly for the languages outside the list, and
    [get_snippet] has a hello snippet exactly for those inside. *)
Theorem tables_cover_list_languages (lang topic context : str) :
  (doc_link lang topic = py "# No documentation link found."
   ↔ lang ∉ list_languages) ∧
  (advanced_code_recommendations lang context = py "No advice available."
   ↔ lang ∉ list_languages) ∧
  (get_snippet lang (py "hello") = py "# No snippet found for this topic/language."
   ↔ lang ∉ list_languages).
Proof.
  split; [|split].
  - unfold doc_link, dict_get. split.
    + unfold list_languages. rewrite !elem_of_cons, elem_of_nil.
      intros Hd [-> | [-> | [-> | [-> | [-> | []]]]]]; by vm_compute in Hd.
    + intros Hn. unfold docs. by rewrite not_elem_of_list_to_map_1.
  - unfold advanced_code_recommendations, dict_get. split.
    + unfold list_languages. rewrite !elem_of_cons, elem_of_nil.
      intros Hd [-> | [-> | [-> | [-> | [-> | []]]]]]; by vm_compute in Hd.
    + intros Hn. unfold tips. by rewrite not_elem_of_list_to_map_1.
  - rewrite get_snippet_miss. split.
    + intros Hn Hl. apply Hn. split; [done|].
      apply (bool_decide_unpack _). by vm_compute.
    + tauto.
Qed.

(** ** Further properties of the format/lint adapter *)

(** X4. The adapter raises nothing of its own.  [format_code] and
    [lint_code] raise only on python with the package installed, and then
    what they raise is what the package raised, never [ImportError]: an
    [ImportError] from inside the package is caught like a failed import and
    gives the fallback text. *)
Theorem adapter_raises_only_from_package (env : Env) (lang code : str) (e : exn) :
  (format_code env lang code = Raise e →
   lang = py "python" ∧ e ≠ ImportError ∧
   ∃ fix_code, autopep8_fix_code env = Some fix_code ∧ fix_code code = Raise e) ∧
  (lint_code env lang code = Raise e →
   lang = py "python" ∧ e ≠ ImportError ∧
   ∃ check, pyflakes_api_check env = Some check ∧
            check code (py "<string>") = Raise e) ∧
  (∀ fix_code, autopep8_fix_code env = Some fix_code →
     fix_code code = Raise ImportError →
     format_code env (py "python") code
     = Ret (py "# autopep8 not installed, returning original code." ++ [LF] ++ code)) ∧
  (∀ check, pyflakes_api_check env = Some check →
     check code (py "<string>") = Raise ImportError →
     lint_code env (py "python") code
     = Ret (py "# pyflakes not installed, skipping lint.")).
Proof.
  split; [|split; [|split]].
  - unfold format_code, str_eqb.
    case_bool_decide as Hp; [subst lang | by repeat case_bool_decide].
    destruct (autopep8_fix_code env) as [fix_code|]; simpl; [|done].
    destruct (fix_code code) as [s|e'] eqn:Hf; simpl; [done|].
    destruct e'; simpl; try done; intros [= <-]; eauto.
  - unfold lint_code, str_eqb.
    case_bool_decide as Hp; [subst lang | done].
    destruct (pyflakes_api_check env) as [check|]; simpl; [|done].
    destruct (check code (py "<string>")) as [s|e'] eqn:Hf; simpl; [done|].
    destruct e'; simpl; try done; intros [= <-]; eauto.
  - intros fix_code Ha Hf. unfold format_code. rewrite Ha. simpl.
    by rewrite Hf.
  - intros check Ha Hf. unfold lint_code. rewrite Ha. simpl.
    by rewrite Hf.
Qed.

Lemma adapter_raises_only_from_package_witness :
  py "python" = py "python" ∧ OtherError ≠ ImportError ∧
  ∃ fix_code, autopep8_fix_code raising_packages = Some fix_code ∧
              fix_code (py "x = 1") = Raise OtherError.
Proof.
  apply (adapter_raises_only_from_package raising_packages (py "python")
           (py "x = 1") OtherError).
  reflexivity.
Defined.

Lemma forallb_concat {A} (f : A → bool) (ls : list (list A)) :
  forallb f (concat ls) = true → Forall (λ l, forallb f l = true) ls.
Proof.
  induction ls as [|l ls IH]; simpl; [constructor|].
  rewrite forallb_app, andb_true_iff. intros [Hl Hls].
  constructor; [done | by apply IH].
Qed.

(** X5. On java, text made of whitespace only, the empty text included,
    comes back from [format_code] as it is. *)
Theorem format_code_java_blank (env : Env) (code : str) :
  forallb isspace code = true →
  format_code env (py "java") code = Ret code.
Proof.
  intros Hb.
  change (format_code env (py "java") code)
    with (Ret (textwrap_indent code (py "    "))).
  f_equal. unfold textwrap_indent.
  rewrite <- (concat_splitlines_keepends code) at 2.
  rewrite <- (concat_splitlines_keepends code) in Hb.
  apply forallb_concat in Hb. f_equal.
  induction Hb as [|l ls Hl _ IH]; simpl; [done|].
  by rewrite IH, indent_line_blank, Hl.
Qed.

Lemma format_code_java_blank_witness :
  format_code no_packages (py "java") ([32; 9; LF; LF; 32]%N)
  = Ret ([32; 9; LF; LF; 32]%N).
Proof.
  apply (format_code_java_blank no_packages [32; 9; LF; LF; 32]%N).
  reflexivity.
Defined.

(** ** Further properties of the dispatcher *)

Lemma repl_iteration_cases env DL (w : world) :
  autopep8_fix_code env = None → pyflakes_api_check env = None →
  (stdin w = [] ∧
   repl_iteration env DL w
   = (Raise EOFError, World [] (stdout w ++ [Prompted (py "codetool> ")]))) ∨
  (∃ out, repl_iteration env DL w
          = (Ret true, World out.1 (out.2 ++ [Printed (py "Goodbye!")]))) ∨
  (∃ w', repl_iteration env DL w = (Ret false, w')).
Proof.
  intros Ha Hp. unfold repl_iteration, mbind, io_mbind, io_bind, input.
  destruct (stdin w) as [|c s] eqn:Hin; [by left|]. right.
  destruct (readline (c :: s)) as [l r].
  destruct (decide (strip (chomp l) = py "exit")) as [-> | Hexit].
  - left. rewrite repl_dispatch_exit. by eexists (_, _).
  - right. by apply repl_dispatch_continues.
Qed.

Lemma repl_loop_outcome_bounded env DL (n : nat) :
  autopep8_fix_code env = None → pyflakes_api_check env = None →
  ∀ w, length (stdin w) < n →
    (∃ out, repl_loop env DL w
            = (Ret tt, World out.1 (out.2 ++ [Printed (py "Goodbye!")]))) ∨
    (∃ out, repl_loop env DL w = (Raise EOFError, World [] out)).
Proof.
  intros Ha Hp. induction n as [|n IH]; intros w Hn; [lia|].
  rewrite repl_loop_unfold.
  destruct (repl_iteration_cases env DL w Ha Hp)
    as [[_ ->] | [[out ->] | [w' Hstep]]].
  - right. by eexists.
  - left. by exists out.
  - rewrite Hstep. apply IH. apply repl_iteration_shorter in Hstep. lia.
Qed.

(** X6. With neither optional package installed, an interactive session
    ends in one of two ways, whatever the input: normally, its last output
    being "Goodbye!", or with [EOFError] once the input is used up.  No other
    exception, an index out of range in particular, leaves the loop. *)
Theorem interactive_cli_outcome (env : Env) (w : world) :
  autopep8_fix_code env = None → pyflakes_api_check env = None →
  (∃ rest out,
     interactive_cli env w
     = (Ret tt, World rest (out ++ [Printed (py "Goodbye!")]))) ∨
  (∃ out, interactive_cli env w = (Raise EOFError, World [] out)).
Proof.
  intros Ha Hp.
  set (w0 := World (stdin w)
               ((((stdout w ++ [Printed (replicate 70 61%N)])
                  ++ [Printed (py "CodeTool - Interactive Code Helper")])
                 ++ [Printed (replicate 70 61%N)])
                ++ [Printed supported_languages_line])).
  set (w1 := World (stdin w0)
               (stdout w0 ++ [Printed (py "Type 'help' for commands, 'exit' to quit.")])).
  change (interactive_cli env w) with (repl_loop env doc_link w1).
  destruct (repl_loop_outcome_bounded env doc_link (S (length (stdin w1))) Ha Hp w1)
    as [[out ->] | [out ->]]; [lia | |].
  - left. by exists out.1, out.2.
  - right. by exists out.
Qed.

Lemma interactive_cli_outcome_witness :
  (∃ rest out,
     interactive_cli no_packages (World (py "lint lua") [])
     = (Ret tt, World rest (out ++ [Printed (py "Goodbye!")]))) ∨
  (∃ out, interactive_cli no_packages (World (py "lint lua") [])
          = (Raise EOFError, World [] out)).
Proof.
  apply (interactive_cli_outcome no_packages (World (py "lint lua") []));
    reflexivity.
Defined.

(** [main] on at least a verb: the tests on [len(sys.argv)] read as tests on
    the number of arguments after the verb. *)
Lemma main_with_verb env DL (prog verb : str) (args : list str) (w : world) :
  main_with env DL (prog :: verb :: args) w
  = (if str_eqb verb (py "snippet") then
      (if negb (length args =? 2) then
         print (py "Usage: snippet <lang> <topic>");;
         sys_exit 1
       else mret tt);;
      lang ← lift (getitem args 0);
      topic ← lift (getitem args 1);
      print (get_snippet lang topic)
    else if str_eqb verb (py "template") then
      (if negb (length args =? 2) then
         print (py "Usage: template <lang> <kind>");;
         sys_exit 1
       else mret tt);;
      lang ← lift (getitem args 0);
      kind ← lift (getitem args 1);
      print (generate_template lang kind)
    else if str_eqb verb (py "format") then
      (if negb (length args =? 1) then
         print (py "Usage: format <lang>");;
         sys_exit 1
       else mret tt);;
      lang ← lift (getitem args 0);
      print (py "Paste code, then Ctrl-D (EOF):");;
      code ← stdin_read;
      formatted ← lift (format_code env lang code);
      print formatted
    else if str_eqb verb (py "lint") then
      (if negb (length args =? 1) then
         print (py "Usage: lint <lang>");;
         sys_exit 1
       else mret tt);;
      lang ← lift (getitem args 0);
      print (py "Paste code, then Ctrl-D (EOF):");;
      code ← stdin_read;
      report ← lift (lint_code env lang code);
      print report
    else if str_eqb verb (py "doc") then
      (if negb (length args =? 1) then
         print (py "Usage: doc <lang>");;
         sys_exit 1
       else mret tt);;
      lang ← lift (getitem args 0);
      print (DL lang [])
    else if str_eqb verb (py "langs") then
      print supported_languages_line
    else
      print (py "Unknown command. Try running with no arguments for interactive mode.")) w.
Proof. reflexivity. Qed.

Ltac verb_clash :=
  match goal with
  | H1 : ?v = py ?a, H2 : ?v = py ?b |- _ =>
      exfalso; rewrite H1 in H2; by vm_compute in H2
  end.

(** X7. One-shot mode, given a verb.  If the verb is one of snippet,
    template, format, lint and doc and the number of arguments after it is
    not the one it takes, the program prints the usage line of that verb,
    reads nothing and ends with status 1.  In every other case, an unknown
    verb included, and with neither optional package installed, it runs to
    its end, status 0. *)
Theorem main_exit_status (env : Env) (prog verb : str) (args : list str)
    (w : world) :
  (usage_error verb args = true →
   exit_status (main env (prog :: verb :: args) w).1 = 1%Z ∧
   ∃ msg, main env (prog :: verb :: args) w
          = (Raise (SystemExit 1),
             World (stdin w) (stdout w ++ [Printed msg])) ∧
          startswith msg (py "Usage: " ++ verb ++ py " <lang>") = true) ∧
  (usage_error verb args = false →
   autopep8_fix_code env = None → pyflakes_api_check env = None →
   exit_status (main env (prog :: verb :: args) w).1 = 0%Z ∧
   ∃ w', main env (prog :: verb :: args) w = (Ret tt, w')).
Proof.
  unfold main. rewrite main_with_verb. unfold usage_error, str_eqb. split.
  - repeat case_bool_decide; try verb_clash; subst; simpl orb; simpl andb;
      try done.
    all: destruct (negb _); try done; intros _.
    all: split; [reflexivity | by eexists].
  - intros Hu Ha Hp. revert Hu.
    repeat case_bool_decide; try verb_clash; subst; simpl orb; simpl andb.
    all: try (destruct args as [|a0 [|a1 [|a2 args]]]; try done; intros _).
    all: unfold mbind, io_mbind, io_bind; simpl.
    all: try (destruct (format_code_returns env a0 (stdin w) Ha) as [s ->]).
    all: try (destruct (lint_code_returns env a0 (stdin w) Hp) as [s ->]).
    all: split; [reflexivity | by eexists].
Qed.

Lemma main_exit_status_witness :
  (exit_status (main no_packages
                  [py "codetool.py"; py "doc"; py "lua"; py "tables"]
                  (World (py "unread") [])).1 = 1%Z ∧
   ∃ msg, main no_packages [py "codetool.py"; py "doc"; py "lua"; py "tables"]
            (World (py "unread") [])
          = (Raise (SystemExit 1), World (py "unread") ([] ++ [Printed msg])) ∧
          startswith msg (py "Usage: " ++ py "doc" ++ py " <lang>") = true) ∧
  (exit_status (main no_packages [py "codetool.py"; py "langsxyz"]
                  (World (py "unread") [])).1 = 0%Z ∧
   ∃ w', main no_packages [py "codetool.py"; py "langsxyz"]
           (World (py "unread") [])
         = (Ret tt, w')).
Proof.
  split.
  - apply (main_exit_status no_packages (py "codetool.py") (py "doc")
             [py "lua"; py "tables"] (World (py "unread") [])).
    vm_compute. reflexivity.
  - apply (main_exit_status no_packages (py "codetool.py") (py "langsxyz")
             [] (World (py "unread") [])); reflexivity.
Defined.

(** Words, [split] and [strip]. *)

Lemma is_word_forallb (a : str) :
  is_word a = true → a ≠ [] ∧ forallb (λ c, negb (isspace c)) a = true.
Proof. by destruct a. Qed.

Lemma split_from_word (cur a s : str) :
  forallb (λ c, negb (isspace c)) a = true →
  split_from cur (a ++ s) = split_from (cur ++ a) s.
Proof.
  revert cur. induction a as [|c a IH]; intros cur; simpl.
  - by rewrite app_nil_r.
  - rewrite andb_true_iff, negb_true_iff. intros [-> Ha].
    rewrite IH by done. by rewrite <- app_assoc.
Qed.

Lemma split_from_end (a : str) :
  is_word a = true → split_from [] a = [a].
Proof.
  intros [Hne Ha]%is_word_forallb.
  rewrite <- (app_nil_r a) at 1. rewrite split_from_word by done.
  simpl. by destruct a.
Qed.

Lemma split_from_space (a s : str) :
  is_word a = true → split_from [] (a ++ 32%N :: s) = a :: split_from [] s.
Proof.
  intros [Hne Ha]%is_word_forallb.
  rewrite split_from_word by done. simpl. by destruct a.
Qed.

Lemma rstrip_word_end (s a : str) :
  is_word a = true → rstrip (s ++ a) = s ++ a.
Proof.
  intros [Hne Ha]%is_word_forallb.
  destruct a as [|c a _] using rev_ind; [done|].
  rewrite forallb_app in Ha. simpl in Ha.
  apply andb_true_iff in Ha as [_ Hc]. rewrite andb_true_r in Hc.
  apply negb_true_iff in Hc.
  unfold rstrip. rewrite app_assoc, rev_unit. simpl. rewrite Hc.
  by rewrite <- (rev_unit (s ++ a) c), rev_involutive.
Qed.

Lemma is_word_no_newline (a : str) : is_word a = true → LF ∉ a.
Proof.
  intros [_ Ha]%is_word_forallb Hin.
  rewrite forallb_forall in Ha. apply list_elem_of_In, Ha in Hin.
  by vm_compute in Hin.
Qed.

(** X8. A command typed at the prompt with its arguments separated by
    single spaces does what the same arguments do in one-shot mode: for
    words [lang] and [topic], the lines [snippet lang topic],
    [template lang topic] and [doc lang] print exactly the text that the
    program prints when run with these arguments, and the loop goes on. *)
Theorem interactive_agrees_with_one_shot (env : Env) (prog lang topic rest : str)
    (out : list event) (w1 : world) :
  is_word lang = true → is_word topic = true →
  let prompted := out ++ [Prompted (py "codetool> ")] in
  (repl_iteration env doc_link
     (World ((py "snippet " ++ lang ++ py " " ++ topic) ++ LF :: rest) out)
   = (Ret false, World rest (prompted ++ [Printed (get_snippet lang topic)])) ∧
   main env [prog; py "snippet"; lang; topic] w1
   = (Ret tt, World (stdin w1)
                (stdout w1 ++ [Printed (get_snippet lang topic)]))) ∧
  (repl_iteration env doc_link
     (World ((py "template " ++ lang ++ py " " ++ topic) ++ LF :: rest) out)
   = (Ret false,
      World rest (prompted ++ [Printed (generate_template lang topic)])) ∧
   main env [prog; py "template"; lang; topic] w1
   = (Ret tt, World (stdin w1)
                (stdout w1 ++ [Printed (generate_template lang topic)]))) ∧
  (repl_iteration env doc_link
     (World ((py "doc " ++ lang) ++ LF :: rest) out)
   = (Ret false, World rest (prompted ++ [Printed (doc_link lang [])])) ∧
   main env [prog; py "doc"; lang] w1
   = (Ret tt, World (stdin w1) (stdout w1 ++ [Printed (doc_link lang [])]))).
Proof.
  intros Hl Ht prompted. subst prompted.
  pose proof (is_word_no_newline lang Hl) as Hnl.
  pose proof (is_word_no_newline topic Ht) as Hnt.
  assert (Hsplit2 : split_from [] (lang ++ py " " ++ topic) = [lang; topic]).
  { change (py " " ++ topic) with (32%N :: topic).
    by rewrite split_from_space, split_from_end. }
  split; [|split]; (split; [|reflexivity]).
  - rewrite repl_iteration_line
      by (rewrite !not_elem_of_app; repeat split; try done;
          apply (bool_decide_unpack _); by vm_compute).
    assert (Hs : strip (py "snippet " ++ lang ++ py " " ++ topic)
                 = py "snippet " ++ lang ++ py " " ++ topic).
    { unfold strip. change (lstrip (?a ++ ?b)) with (a ++ b).
      rewrite !app_assoc. by apply rstrip_word_end. }
    rewrite Hs. unfold repl_dispatch. decide_tests. cbv zeta.
    change (split (py "snippet " ++ lang ++ py " " ++ topic))
      with (py "snippet" :: split_from [] (lang ++ py " " ++ topic)).
    by rewrite Hsplit2.
  - rewrite repl_iteration_line
      by (rewrite !not_elem_of_app; repeat split; try done;
          apply (bool_decide_unpack _); by vm_compute).
    assert (Hs : strip (py "template " ++ lang ++ py " " ++ topic)
                 = py "template " ++ lang ++ py " " ++ topic).
    { unfold strip. change (lstrip (?a ++ ?b)) with (a ++ b).
      rewrite !app_assoc. by apply rstrip_word_end. }
    rewrite Hs. unfold repl_dispatch. decide_tests. cbv zeta.
    change (split (py "template " ++ lang ++ py " " ++ topic))
      with (py "template" :: split_from [] (lang ++ py " " ++ topic)).
    by rewrite Hsplit2.
  - rewrite repl_iteration_line
      by (rewrite !not_elem_of_app; repeat split; try done;
          apply (bool_decide_unpack _); by vm_compute).
    assert (Hs : strip (py "doc " ++ lang) = py "doc " ++ lang).
    { unfold strip. change (lstrip (?a ++ ?b)) with (a ++ b).
      by apply rstrip_word_end. }
    rewrite Hs, repl_dispatch_doc. unfold split.
    by rewrite split_from_end.
Qed.

Lemma interactive_agrees_with_one_shot_witness :
  repl_iteration no_packages doc_link
    (World ((py "doc " ++ py "kotlin") ++ LF :: py "exit") [])
  = (Ret false,
     World (py "exit") ([] ++ [Prompted (py "codetool> ")]
                        ++ [Printed (doc_link (py "kotlin") [])])) ∧
  main no_packages [py "codetool.py"; py "doc"; py "kotlin"] (World [] [])
  = (Ret tt, World [] ([] ++ [Printed (doc_link (py "kotlin") [])])).
Proof.
  apply (interactive_agrees_with_one_shot no_packages (py "codetool.py")
           (py "kotlin") (py "hello") (py "exit") [] (World [] []));
    reflexivity.
Defined.




(** ** The batch mode *)

Lemma for_each_app {A} (l1 l2 : list A) (body : A → fsio unit) (fs : store) :
  for_each (l1 ++ l2) body fs
  = fs_bind (for_each l1 body) (λ _, for_each l2 body) fs.
Proof.
  revert fs. induction l1 as [|a l1 IH]; intros fs; simpl.
  - reflexivity.
  - unfold fs_bind. destruct (body a fs) as [[[]|e] fs1]; [|done].
    by rewrite IH.
Qed.

Lemma for_each_pairs {A B} (a : A) (lb : list B) (body : A → B → fsio unit)
    (fs : store) :
  for_each lb (body a) fs
  = for_each (b ← lb; [(a, b)]) (λ ab, body ab.1 ab.2) fs.
Proof.
  revert fs. induction lb as [|b lb IH]; intros fs; [done|].
  simpl. unfold fs_bind. destruct (body a b fs) as [[[]|e] fs1]; [|done].
  apply IH.
Qed.

Lemma for_each_nested {A B} (la : list A) (lb : list B)
    (body : A → B → fsio unit) (fs : store) :
  for_each la (λ a, for_each lb (body a)) fs
  = for_each (a ← la; b ← lb; [(a, b)]) (λ ab, body ab.1 ab.2) fs.
Proof.
  revert fs. induction la as [|a la IH]; intros fs; [done|].
  change (a0 ← a :: la; b ← lb; [(a0, b)])
    with ((b ← lb; [(a, b)]) ++ (a0 ← la; b ← lb; [(a0, b)])).
  rewrite for_each_app. simpl. unfold fs_bind.
  rewrite (for_each_pairs a lb body fs).
  destruct (for_each (b ← lb; [(a, b)]) _ fs) as [[[]|e] fs1]; [|done].
  apply IH.
Qed.

Lemma batch_generate_templates_flat (fs : store) :
  batch_generate_templates fs = for_each catalog_pairs write_template fs.
Proof.
  exact (for_each_nested list_languages topics
           (λ lang kind, write_template (lang, kind)) fs).
Qed.

Lemma catalog_pairs_elem (lang kind : str) :
  (lang, kind) ∈ catalog_pairs ↔ lang ∈ list_languages ∧ kind ∈ topics.
Proof.
  unfold catalog_pairs. rewrite list_elem_of_bind. split.
  - intros (a & Hin & Ha). apply list_elem_of_bind in Hin as (b & Hin & Hb).
    apply list_elem_of_singleton in Hin as [= -> ->]. done.
  - intros [Hl Hk]. exists lang. split; [|done].
    apply list_elem_of_bind. exists kind. split; [|done].
    by apply list_elem_of_singleton.
Qed.

Lemma template_path_in_examples (lang kind : str) :
  lang ∈ list_languages → kind ∈ topics →
  parent (template_path lang kind) = py "examples" ∧
  template_path lang kind ≠ py "examples".
Proof.
  unfold list_languages, topics. rewrite !elem_of_cons, !elem_of_nil.
  intros [-> | [-> | [-> | [-> | [-> | []]]]]] [-> | [-> | [-> | []]]];
    split; by vm_compute.
Qed.

Lemma write_template_union (lk : str * str) (m fs : store) :
  (∀ c, (m ∪ fs) !! py "examples" ≠ Some (File c)) →
  parent (template_path lk.1 lk.2) = py "examples" →
  template_path lk.1 lk.2 ≠ py "examples" →
  (m ∪ fs) !! template_path lk.1 lk.2 ≠ Some Dir →
  write_template lk (m ∪ fs) = (Ret tt, written [lk] m ∪ fs).
Proof.
  intros Hex Hpar Hne Hdir.
  unfold write_template, fs_bind, makedirs_exist_ok.
  assert (Hmk : match (m ∪ fs) !! py "examples" with
                | Some (File _) => (Raise OtherError, m ∪ fs)
                | _ => (Ret tt, <[py "examples" := Dir]> (m ∪ fs))
                end = (Ret tt, <[py "examples" := Dir]> (m ∪ fs))).
  { destruct ((m ∪ fs) !! py "examples") as [[|c]|] eqn:Hl; try done.
    by destruct (Hex c). }
  rewrite Hmk. unfold write_text. rewrite Hpar.
  destruct (py "examples") as [|c0 ex] eqn:Hpy; [by vm_compute in Hpy|].
  rewrite <- Hpy. rewrite lookup_insert_eq, lookup_insert_ne by done.
  destruct ((m ∪ fs) !! template_path lk.1 lk.2) as [[|c]|] eqn:Hl; try done;
    simpl; by rewrite !insert_union_l.
Qed.

Lemma written_cons (lk : str * str) (l : list (str * str)) (m : store) :
  written (lk :: l) m = written l (written [lk] m).
Proof. reflexivity. Qed.

Lemma for_each_write_template (fs : store) (l : list (str * str)) :
  ∀ m : store,
    (∀ c, (m ∪ fs) !! py "examples" ≠ Some (File c)) →
    (∀ p, m !! p = Some Dir → p = py "examples") →
    Forall (λ lk, parent (template_path lk.1 lk.2) = py "examples" ∧
                  template_path lk.1 lk.2 ≠ py "examples" ∧
                  fs !! template_path lk.1 lk.2 ≠ Some Dir) l →
    for_each l write_template (m ∪ fs) = (Ret tt, written l m ∪ fs).
Proof.
  induction l as [|lk l IH]; intros m Hex Hm Hl; [done|].
  apply Forall_cons in Hl as [(Hpar & Hne & Hfs) Hl].
  simpl for_each. unfold fs_bind.
  rewrite write_template_union; try done.
  - rewrite (written_cons lk l m). apply IH; [| |done].
    + intros c. rewrite (lookup_union_Some_l _ _ _ Dir); [done|]. simpl.
      by rewrite lookup_insert_ne, lookup_insert_eq.
    + intros p. simpl.
      destruct (decide (p = template_path lk.1 lk.2)) as [->|Hp];
        [by rewrite lookup_insert_eq|].
      rewrite lookup_insert_ne by done.
      destruct (decide (p = py "examples")) as [->|Hp']; [done|].
      rewrite lookup_insert_ne by done. apply Hm.
  - intros [Hd | [_ Hd]]%lookup_union_Some_raw; [|done].
    by apply Hm in Hd.
Qed.

Lemma written_other (l : list (str * str)) (p : str) :
  p ≠ py "examples" →
  Forall (λ lk, p ≠ template_path lk.1 lk.2) l →
  ∀ m : store, written l m !! p = m !! p.
Proof.
  intros Hp. induction 1 as [|lk l Hlk _ IH]; intros m; [done|].
  rewrite (written_cons lk l m), IH. simpl.
  by rewrite !lookup_insert_ne.
Qed.

Lemma written_catalog (lang kind : str) :
  lang ∈ list_languages → kind ∈ topics →
  written catalog_pairs ∅ !! py "examples" = Some Dir ∧
  written catalog_pairs ∅ !! template_path lang kind
  = Some (File (get_snippet lang kind)).
Proof.
  unfold list_languages, topics. rewrite !elem_of_cons, !elem_of_nil.
  intros [-> | [-> | [-> | [-> | [-> | []]]]]] [-> | [-> | [-> | []]]];
    split; by vm_compute.
Qed.

Lemma batch_generate_templates_result (fs : store) :
  (∀ c, fs !! py "examples" ≠ Some (File c)) →
  (∀ lang kind, lang ∈ list_languages → kind ∈ topics →
     fs !! template_path lang kind ≠ Some Dir) →
  batch_generate_templates fs = (Ret tt, written catalog_pairs ∅ ∪ fs).
Proof.
  intros Hex Hdir. rewrite batch_generate_templates_flat.
  rewrite <- (left_id_L ∅ (∪) fs) at 1.
  apply for_each_write_template.
  - intros c. by rewrite (left_id_L ∅ (∪)).
  - intros p. by rewrite lookup_empty.
  - apply Forall_forall. intros [lang kind] [Hl Hk]%catalog_pairs_elem.
    destruct (template_path_in_examples lang kind Hl Hk). auto.
Qed.

(** X10. The batch mode, run where [examples] is not a regular file and
    none of its targets is a directory, succeeds: afterwards [examples] is a
    directory, the file [examples/<lang>_<kind>.txt] of every language of
    the list and every kind holds the snippet of that pair, and every other
    path is as it was. *)
Theorem batch_generate_templates_writes (fs : store) :
  (∀ c, fs !! py "examples" ≠ Some (File c)) →
  (∀ lang kind, lang ∈ list_languages → kind ∈ topics →
     fs !! template_path lang kind ≠ Some Dir) →
  ∃ fs', batch_generate_templates fs = (Ret tt, fs') ∧
    fs' !! py "examples" = Some Dir ∧
    (∀ lang kind, lang ∈ list_languages → kind ∈ topics →
       fs' !! template_path lang kind = Some (File (get_snippet lang kind))) ∧
    (∀ p, p ≠ py "examples" →
       (∀ lang kind, lang ∈ list_languages → kind ∈ topics →
          p ≠ template_path lang kind) →
       fs' !! p = fs !! p).
Proof.
  intros Hex Hdir. eexists. split; [by apply batch_generate_templates_result|].
  split; [|split].
  - apply lookup_union_Some_l.
    apply (written_catalog (py "python") (py "hello"));
      apply (bool_decide_unpack _); by vm_compute.
  - intros lang kind Hl Hk. apply lookup_union_Some_l.
    by apply written_catalog.
  - intros p Hp Hother. rewrite lookup_union_r; [done|].
    rewrite written_other; [done | done |].
    apply Forall_forall. intros [lang kind] [Hl Hk]%catalog_pairs_elem.
    by apply Hother.
Qed.

Lemma sample_store_ready :
  (∀ c, sample_store !! py "examples" ≠ Some (File c)) ∧
  (∀ lang kind, lang ∈ list_languages → kind ∈ topics →
     sample_store !! template_path lang kind ≠ Some Dir).
Proof.
  split; [by vm_compute|].
  unfold list_languages, topics. intros lang kind.
  rewrite !elem_of_cons, !elem_of_nil.
  intros [-> | [-> | [-> | [-> | [-> | []]]]]] [-> | [-> | [-> | []]]];
    by vm_compute.
Qed.

Lemma batch_generate_templates_writes_witness :
  ∃ fs', batch_generate_templates sample_store = (Ret tt, fs') ∧
    fs' !! py "examples" = Some Dir ∧
    (∀ lang kind, lang ∈ list_languages → kind ∈ topics →
       fs' !! template_path lang kind = Some (File (get_snippet lang kind))) ∧
    (∀ p, p ≠ py "examples" →
       (∀ lang kind, lang ∈ list_languages → kind ∈ topics →
          p ≠ template_path lang kind) →
       fs' !! p = sample_store !! p).
Proof.
  apply (batch_generate_templates_writes sample_store);
    apply sample_store_ready.
Defined.

(** X11. The batch mode, run where [examples] is a regular file, fails at
    its first step, the creation of the directory, and writes nothing. *)
Theorem batch_generate_templates_blocked (fs : store) (c : str) :
  fs !! py "examples" = Some (File c) →
  batch_generate_templates fs = (Raise OtherError, fs).
Proof.
  intros Hex. unfold batch_generate_templates, list_languages.
  simpl for_each. unfold fs_bind, makedirs_exist_ok. by rewrite Hex.
Qed.

Lemma batch_generate_templates_blocked_witness :
  batch_generate_templates blocked_store = (Raise OtherError, blocked_store).
Proof.
  apply (batch_generate_templates_blocked blocked_store (py "not a directory")).
  reflexivity.
Defined.

(** X12. Running the batch mode again changes nothing: under the conditions
    of a successful first run, a second run on the store the first one left
    succeeds and leaves that same store. *)
Theorem batch_generate_templates_twice (fs fs' : store) :
  (∀ c, fs !! py "examples" ≠ Some (File c)) →
  (∀ lang kind, lang ∈ list_languages → kind ∈ topics →
     fs !! template_path lang kind ≠ Some Dir) →
  batch_generate_templates fs = (Ret tt, fs') →
  batch_generate_templates fs' = (Ret tt, fs').
Proof.
  intros Hex Hdir. rewrite batch_generate_templates_result by done.
  intros Hrun. pose proof (f_equal snd Hrun) as Hfs.
  change (written catalog_pairs ∅ ∪ fs = fs') in Hfs. subst fs'. clear Hrun.
  rewrite batch_generate_templates_result.
  - by rewrite (assoc_L (∪)), (idemp_L (∪)).
  - intros c. rewrite (lookup_union_Some_l _ _ _ Dir); [done|].
    apply (written_catalog (py "python") (py "hello"));
      apply (bool_decide_unpack _); by vm_compute.
  - intros lang kind Hl Hk.
    rewrite (lookup_union_Some_l _ _ _ (File (get_snippet lang kind))); [done|].
    by apply written_catalog.
Qed.

Lemma batch_generate_templates_twice_witness :
  batch_generate_templates (batch_generate_templates sample_store).2
  = (Ret tt, (batch_generate_templates sample_store).2).
Proof.
  apply (batch_generate_templates_twice sample_store
           (batch_generate_templates sample_store).2);
    [apply sample_store_ready | apply sample_store_ready |].
  rewrite (batch_generate_templates_result sample_store)
    by apply sample_store_ready.
  reflexivity.
Defined.

(** ** Usage errors at the prompt *)

Lemma join_cons2 (sep a b : str) (l : list str) :
  join sep (a :: b :: l) = a ++ sep ++ join sep (b :: l).
Proof. reflexivity. Qed.

Lemma split_from_join (ws : list str) :
  Forall (λ a, is_word a = true) ws →
  split_from [] (join (py " ") ws) = ws.
Proof.
  induction 1 as [|a ws Ha Hws IH]; [done|].
  destruct ws as [|b ws]; [by apply split_from_end|].
  rewrite join_cons2. change (py " " ++ ?t) with (32%N :: t).
  by rewrite split_from_space, IH.
Qed.

Lemma join_no_newline (ws : list str) :
  Forall (λ a, is_word a = true) ws → LF ∉ join (py " ") ws.
Proof.
  induction 1 as [|a ws Ha Hws IH]; [by apply not_elem_of_nil|].
  destruct ws as [|b ws]; [by apply is_word_no_newline|].
  rewrite join_cons2, !not_elem_of_app. split; [by apply is_word_no_newline|].
  split; [|done]. apply (bool_decide_unpack _). by vm_compute.
Qed.

Lemma rstrip_join_end (s : str) (ws : list str) :
  ws ≠ [] → Forall (λ a, is_word a = true) ws →
  rstrip (s ++ join (py " ") ws) = s ++ join (py " ") ws.
Proof.
  intros Hne Hws. revert s.
  induction Hws as [|a ws Ha Hws IH]; intros s; [done|].
  destruct ws as [|b ws]; [by apply rstrip_word_end|].
  rewrite join_cons2, !app_assoc. by apply IH.
Qed.

(** X13. A usage error at the prompt does not end the session: a line made
    of one of the verbs snippet, template, format, lint and doc followed by
    one or more words, their number not being the one the verb takes, prints
    the usage line of that verb, reads nothing beyond the line, and the loop
    goes on. *)
Theorem interactive_usage_error (env : Env) (verb rest : str)
    (ws : list str) (out : list event) :
  verb ∈ [py "snippet"; py "template"; py "format"; py "lint"; py "doc"] →
  ws ≠ [] → Forall (λ a, is_word a = true) ws →
  usage_error verb ws = true →
  ∃ msg,
    repl_iteration env doc_link
      (World ((verb ++ py " " ++ join (py " ") ws) ++ LF :: rest) out)
    = (Ret false,
       World rest ((out ++ [Prompted (py "codetool> ")]) ++ [Printed msg])) ∧
    startswith msg (py "Usage: " ++ verb ++ py " <lang>") = true.
Proof.
  intros Hv Hne Hws Hu.
  pose proof (join_no_newline ws Hws) as Hnl.
  pose proof (split_from_join ws Hws) as Hsplit.
  rewrite !elem_of_cons, elem_of_nil in Hv.
  destruct Hv as [-> | [-> | [-> | [-> | [-> | []]]]]];
    (rewrite repl_iteration_line
       by (rewrite !not_elem_of_app; repeat split; try done;
           apply (bool_decide_unpack _); by vm_compute));
    match goal with
    | |- context [strip (?v ++ ?sp ++ ?j)] =>
        assert (Hs : strip (v ++ sp ++ j) = v ++ sp ++ j)
          by (unfold strip; change (lstrip (v ++ sp ++ j)) with (v ++ sp ++ j);
              rewrite !app_assoc; by apply rstrip_join_end);
        rewrite Hs; clear Hs
    end;
    unfold repl_dispatch; decide_tests; cbv zeta;
    match goal with
    | |- context [split (?v ++ ?sp ++ ?j)] =>
        change (split (v ++ sp ++ j)) with (v :: split_from [] j)
    end;
    rewrite Hsplit;
    revert Hu; unfold usage_error; decide_tests;
    change (length (?v :: ws) =? 3) with (length ws =? 2);
    change (length (?v :: ws) =? 2) with (length ws =? 1);
    simpl orb; simpl andb; rewrite ?orb_false_r; intros ->;
    eexists; (split; reflexivity).
Qed.

Lemma interactive_usage_error_witness :
  ∃ msg,
    repl_iteration no_packages doc_link
      (World ((py "doc" ++ py " " ++ join (py " ") [py "lua"; py "tables"])
              ++ LF :: py "exit") [])
    = (Ret false,
       World (py "exit") (([] ++ [Prompted (py "codetool> ")]) ++ [Printed msg])) ∧
    startswith msg (py "Usage: " ++ py "doc" ++ py " <lang>") = true.
Proof.
  apply (interactive_usage_error no_packages (py "doc") (py "exit")
           [py "lua"; py "tables"] []).
  - apply (bool_decide_unpack _). vm_compute. exact I.
  - discriminate.
  - repeat constructor.
  - reflexivity.
Defined.
